(** * Fraud alerts pipeline: a shallow embedding of [ml/fraudAlertsPipeline.py]

    The development follows the Python module class by class:
    [AlertDeduplicator], [AlertNotifier], [FraudDetector] and
    [FraudAlertsPipeline].  Conventions of the embedding:

    - JSON numbers and Python floats are exact rationals ([Q]); every
      comparison of the source is the same comparison on [Q].  A division
      whose divisor is zero raises [ZeroDivisionError], as in Python.
    - [datetime] is the record of its seven fields; differences of two
      datetimes go through the proleptic ordinal, as in CPython.
    - A Python [dict] with string keys is a [gmap string _], a [set] of
      strings is a [gset string], a [deque(maxlen=_)] is a list that drops
      its oldest element on overflow.
    - The free-text [description] and [evidence] fields of a detection carry
      formatted floats and no behaviour depends on them; they are left out
      of the records.
    - Mutation of [self] is explicit state passing; exceptions are the
      [Raise] outcome; the clock, the HTTP client and Redis are the [World]
      the pipeline runs in, and every request sent out is kept in its
      [trace].  Calls to the logger are not part of the model. *)

From Stdlib Require Import ZArith QArith Qabs Lqa Lia List Ascii String.
From stdpp Require Import gmap strings list fin_maps.
Import ListNotations.

Local Open Scope Z_scope.

(** ** Enumerations *)

Inductive AlertSeverity := CRITICAL | HIGH | MEDIUM | LOW | INFO.

Inductive FraudType :=
  | PRICE_MANIPULATION | FLASH_LOAN_ATTACK | ORACLE_SPOOFING
  | COORDINATED_ATTACK | VOLUME_ANOMALY | LATENCY_SPIKE
  | SOURCE_DEGRADATION | REPLAY_ATTACK | SANDWICH_ATTACK | MEV_EXTRACTION.

#[global] Instance AlertSeverity_eq_dec : EqDecision AlertSeverity.
Proof. solve_decision. Defined.

#[global] Instance FraudType_eq_dec : EqDecision FraudType.
Proof. solve_decision. Defined.

(** The [.value] of an enum member. *)
Definition severity_value (s : AlertSeverity) : string :=
  match s with
  | CRITICAL => "CRITICAL" | HIGH => "HIGH" | MEDIUM => "MEDIUM"
  | LOW => "LOW" | INFO => "INFO"
  end.

Definition fraud_value (t : FraudType) : string :=
  match t with
  | PRICE_MANIPULATION => "PRICE_MANIPULATION"
  | FLASH_LOAN_ATTACK => "FLASH_LOAN_ATTACK"
  | ORACLE_SPOOFING => "ORACLE_SPOOFING"
  | COORDINATED_ATTACK => "COORDINATED_ATTACK"
  | VOLUME_ANOMALY => "VOLUME_ANOMALY"
  | LATENCY_SPIKE => "LATENCY_SPIKE"
  | SOURCE_DEGRADATION => "SOURCE_DEGRADATION"
  | REPLAY_ATTACK => "REPLAY_ATTACK"
  | SANDWICH_ATTACK => "SANDWICH_ATTACK"
  | MEV_EXTRACTION => "MEV_EXTRACTION"
  end.

(** ** Python numbers *)

(** Strict comparison of two numbers, as a boolean. *)
Definition Qltb (a b : Q) : bool :=
  match (a ?= b)%Q with Lt => true | _ => false end.

Definition Qleb (a b : Q) : bool :=
  match (a ?= b)%Q with Gt => false | _ => true end.

Definition Qeqb (a b : Q) : bool :=
  match (a ?= b)%Q with Eq => true | _ => false end.

(** [min(a, b)] and [max(a, b)] of the builtins: the first argument wins
    unless the second is strictly smaller (resp. larger). *)
Definition py_min (a b : Q) : Q := if Qltb b a then b else a.
Definition py_max (a b : Q) : Q := if Qltb a b then b else a.

Definition py_abs (a : Q) : Q := if Qltb a 0 then (- a)%Q else a.

(** ** Exceptions *)

Inductive Exn :=
  | ZeroDivisionError | KeyError | IndexError | ValueError | ConnectionError.

Inductive result (A : Type) :=
  | Ok (a : A)
  | Raise (e : Exn).
Arguments Ok {A} a.
Arguments Raise {A} e.

Definition rbind {A B} (r : result A) (k : A -> result B) : result B :=
  match r with
  | Ok a => k a
  | Raise e => Raise e
  end.

(** True division [a / b]. *)
Definition py_div (a b : Q) : result Q :=
  if Qeqb b 0 then Raise ZeroDivisionError else Ok (a / b)%Q.

(** ** datetime *)

Record datetime := mk_datetime {
  year : Z; month : Z; day : Z;
  hour : Z; minute : Z; second : Z; microsecond : Z
}.

Definition _is_leap (y : Z) : bool :=
  (y mod 4 =? 0) && (negb (y mod 100 =? 0) || (y mod 400 =? 0)).

Definition _days_before_year (y : Z) : Z :=
  let y := y - 1 in y * 365 + y / 4 - y / 100 + y / 400.

Definition _DAYS_BEFORE_MONTH : list Z :=
  [-1; 0; 31; 59; 90; 120; 151; 181; 212; 243; 273; 304; 334].

Definition _days_before_month (y m : Z) : Z :=
  nth (Z.to_nat m) _DAYS_BEFORE_MONTH 0
  + (if (2 <? m) && _is_leap y then 1 else 0).

Definition _ymd2ord (y m d : Z) : Z :=
  _days_before_year y + _days_before_month y m + d.

Definition toordinal (t : datetime) : Z := _ymd2ord (year t) (month t) (day t).

(** [timedelta]: the difference of two datetimes, normalised to a number of
    microseconds ([days], [seconds] and [microseconds] together). *)
Definition datetime_sub (a b : datetime) : Z :=
  let days := toordinal a - toordinal b in
  let secs := (second a + minute a * 60 + hour a * 3600)
              - (second b + minute b * 60 + hour b * 3600) in
  let us := microsecond a - microsecond b in
  (days * 86400 + secs) * 1000000 + us.

Definition total_seconds (delta : Z) : Q := delta # 1000000.



(** *** isoformat *)

Definition digit (d : Z) : ascii := ascii_of_nat (48 + Z.to_nat (d mod 10)).

(** ["%0<w>d" % n] for [0 <= n < 10^w]. *)
Fixpoint zfill (w : nat) (n : Z) : string :=
  match w with
  | O => EmptyString
  | S w' => (zfill w' (n / 10) ++ String (digit n) EmptyString)%string
  end.

Definition isoformat (t : datetime) : string :=
  (zfill 4 (year t) ++ "-" ++ zfill 2 (month t) ++ "-" ++ zfill 2 (day t)
   ++ "T" ++ zfill 2 (hour t) ++ ":" ++ zfill 2 (minute t) ++ ":"
   ++ zfill 2 (second t)
   ++ (if (microsecond t =? 0)%Z then "" else "." ++ zfill 6 (microsecond t)))%string.

(** ** AlertDeduplicator *)

Module AlertDeduplicator.

Record t := mk {
  cooldown_minutes : Z;
  recent_alerts : gmap string datetime;
  alert_counts : gmap string Z
}.

Definition __init__ (cooldown : Z) : t :=
  {| cooldown_minutes := cooldown; recent_alerts := ∅; alert_counts := ∅ |}.

(** [f"{feed_name}:{fraud_type}"] *)
Definition key (feed_name fraud_type : string) : string :=
  (feed_name ++ ":" ++ fraud_type)%string.

Definition _increment_count (self : t) (k : string) : t :=
  {| cooldown_minutes := cooldown_minutes self;
     recent_alerts := recent_alerts self;
     alert_counts :=
       <[k := default 0 (alert_counts self !! k) + 1]> (alert_counts self) |}.

Definition set_recent (self : t) (k : string) (now : datetime) : t :=
  {| cooldown_minutes := cooldown_minutes self;
     recent_alerts := <[k := now]> (recent_alerts self);
     alert_counts := alert_counts self |}.

(** [(now - last).total_seconds() / 60] *)
Definition elapsed_minutes (now last : datetime) : Q :=
  (total_seconds (datetime_sub now last) / 60)%Q.

(** The cooldown check: [key in self.recent_alerts] and
    [elapsed < self.cooldown_minutes]. *)
Definition in_cooldown (self : t) (k : string) (now : datetime) : bool :=
  match recent_alerts self !! k with
  | Some last =>
      Qltb (elapsed_minutes now last) (inject_Z (cooldown_minutes self))
  | None => false
  end.

(** [should_alert]; [now] is the value of [datetime.now()] read on entry.
    Returns the answer and the deduplicator after the call. *)
Definition should_alert (self : t) (feed_name fraud_type : string)
    (severity : AlertSeverity) (now : datetime) : bool * t :=
  let k := key feed_name fraud_type in
  if decide (severity = CRITICAL) then
    (true, set_recent self k now)
  else if in_cooldown self k now then (false, self)
  else (true, _increment_count (set_recent self k now) k).

Definition get_alert_statistics (self : t) : gmap string Z :=
  alert_counts self.

(** [cleanup_old_entries]: keeps the entries strictly younger than
    [now - timedelta(hours=max_age_hours)]. *)
Definition cleanup_old_entries (self : t) (max_age_hours : Z)
    (now : datetime) : t :=
  {| cooldown_minutes := cooldown_minutes self;
     recent_alerts :=
       filter (fun kv => datetime_sub now (snd kv)
                         < max_age_hours * 3600 * 1000000)
              (recent_alerts self);
     alert_counts := alert_counts self |}.

End AlertDeduplicator.

(** ** FraudDetector *)

(** [list[-n:]] *)
Definition last_n {A} (n : nat) (l : list A) : list A :=
  skipn (length l - n) l.

(** [list[:-1]] *)
Definition all_but_last {A} (l : list A) : list A :=
  firstn (length l - 1) l.

(** [deque(maxlen=n).append(x)] *)
Definition deque_append {A} (maxlen : nat) (d : list A) (x : A) : list A :=
  last_n maxlen (d ++ [x]).

Definition Qsum (l : list Q) : Q := fold_right Qplus 0%Q l.

(** [np.mean] of a non-empty sequence. *)
Definition np_mean (l : list Q) : Q := (Qsum l / inject_Z (Z.of_nat (length l)))%Q.

(** The message of a [price:update]: a JSON object, every key optional. *)
Record FeedData := mk_feed {
  feed_name : option string;
  price : option Q;
  volume : option Q;
  source_count : option Q;
  latency_ms : option Q;
  timestamp : option string
}.

(** An element of the timestamp buffer: the message's own timestamp, or the
    clock when the message has none. *)
Inductive stamp := MsgStamp (s : string) | ClockStamp (t : datetime).

(** One entry of the list returned by a detector. *)
Record Detection := mk_detection {
  fraud_type : FraudType;
  severity : AlertSeverity;
  confidence : Q;
  score : Q;
  potential_loss : Q
}.

(** The data frame handed to the feature extractor. *)
Record Frame := mk_frame {
  col_timestamp : list stamp;
  col_price : list Q;
  col_volume : list Q;
  col_source_count : list Q;
  col_latency_ms : list Q
}.

(** The two objects of a saved model.  A model may lack [score_samples]. *)
Record FeatureExtractor := mk_extractor {
  extract_all_features : Frame -> result (list (list Q));
  scale_features : list (list Q) -> result (list (list Q))
}.

Record Model := mk_model {
  score_samples : option (list Q -> result Q)
}.

Record Thresholds := mk_thresholds {
  price_change : Q;
  volume_spike : Q;
  latency_spike : Q;
  source_minimum : Q;
  anomaly_score : Q
}.

Module FraudDetector.

Record t := mk {
  model : option Model;
  feature_extractor : option FeatureExtractor;
  thresholds : Thresholds;
  price_buffer : gmap string (list Q);
  volume_buffer : gmap string (list Q);
  timestamp_buffer : gmap string (list stamp)
}.

(** [__init__]; [saved] is what loading [model_path] gave, if anything. *)
Definition __init__ (saved : option (option Model * option FeatureExtractor))
    : t :=
  {| model := saved ≫= fst;
     feature_extractor := saved ≫= snd;
     thresholds :=
       {| price_change := 0.15; volume_spike := 5; latency_spike := 1000;
          source_minimum := 3; anomaly_score := 0.85 |};
     price_buffer := ∅; volume_buffer := ∅; timestamp_buffer := ∅ |}.

(** [self.<buffer>[feed_name]] *)
Definition buffer {A} (b : gmap string (list A)) (feed : string)
    : result (list A) :=
  match b !! feed with
  | Some l => Ok l
  | None => Raise KeyError
  end.

Definition _estimate_loss (change volume : Q) : Q :=
  (change * volume * 0.1)%Q.

Definition _is_flash_loan_pattern (self : t) (feed : string) : result bool :=
  rbind (buffer (price_buffer self) feed) (fun prices =>
  if (length prices <? 4)%nat then Ok false
  else
    match last_n 4 prices with
    | [r0; r1; r2; r3] =>
        rbind (if negb (Qeqb r0 0) then py_div (py_abs (r1 - r0)) r0
               else Ok 0%Q) (fun change1 =>
        rbind (if negb (Qeqb r2 0) then py_div (py_abs (r3 - r2)) r2
               else Ok 0%Q) (fun change2 =>
        Ok (Qltb 0.1 change1 && Qltb 0.1 change2)))
    | _ => Raise IndexError
    end).

Definition _detect_price_manipulation (self : t) (feed : string)
    (data : FeedData) : result (list Detection) :=
  rbind (buffer (price_buffer self) feed) (fun prices =>
  if (length prices <? 2)%nat then Ok []
  else
    match last_n 2 prices with
    | [previous_price; current_price] =>
        if Qeqb previous_price 0 then Ok []
        else
          rbind (py_div (py_abs (current_price - previous_price))
                        previous_price) (fun change =>
          if Qltb (price_change (thresholds self)) change then
            let sev := if Qltb 0.5 change then CRITICAL else HIGH in
            rbind (py_div change (price_change (thresholds self))) (fun c =>
            let first :=
              {| fraud_type := PRICE_MANIPULATION; severity := sev;
                 confidence := py_min c 1; score := change;
                 potential_loss :=
                   _estimate_loss change (default 0%Q (volume data)) |} in
            rbind (_is_flash_loan_pattern self feed) (fun flash =>
            if flash then
              Ok [first;
                  {| fraud_type := FLASH_LOAN_ATTACK; severity := CRITICAL;
                     confidence := 0.85; score := 0.9;
                     potential_loss :=
                       (_estimate_loss change (default 0%Q (volume data))
                        * 2)%Q |}]
            else Ok [first]))
          else Ok [])
    | _ => Raise IndexError
    end).

Definition _detect_volume_anomaly (self : t) (feed : string)
    (data : FeedData) : result (list Detection) :=
  rbind (buffer (volume_buffer self) feed) (fun volumes =>
  if (length volumes <? 10)%nat then Ok []
  else
    let avg_volume := np_mean (all_but_last volumes) in
    match last_n 1 volumes with
    | [current_volume] =>
        if Qeqb avg_volume 0 then Ok []
        else
          rbind (py_div current_volume avg_volume) (fun spike_ratio =>
          if Qltb (volume_spike (thresholds self)) spike_ratio then
            let sev := if Qltb 10 spike_ratio then HIGH else MEDIUM in
            rbind (py_div spike_ratio (volume_spike (thresholds self) * 2))
                  (fun c =>
            Ok [{| fraud_type := VOLUME_ANOMALY; severity := sev;
                   confidence := py_min c 1;
                   score := (spike_ratio / 10)%Q;
                   potential_loss := (current_volume * 0.01)%Q |}])
          else Ok [])
    | _ => Raise IndexError
    end).

Definition _detect_latency_spike (self : t) (feed : string)
    (data : FeedData) : result (list Detection) :=
  let latency := default 0%Q (latency_ms data) in
  if Qltb (latency_spike (thresholds self)) latency then
    let sev := if Qltb 2000 latency then HIGH else MEDIUM in
    rbind (py_div latency (latency_spike (thresholds self))) (fun s =>
    Ok [{| fraud_type := LATENCY_SPIKE; severity := sev;
           confidence := 0.9; score := s; potential_loss := 0 |}])
  else Ok [].

Definition _detect_source_degradation (self : t) (feed : string)
    (data : FeedData) : result (list Detection) :=
  let sc := default 0%Q (source_count data) in
  if Qltb sc (source_minimum (thresholds self)) then
    let sev := if Qleb sc 1 then CRITICAL else HIGH in
    rbind (py_div sc (source_minimum (thresholds self))) (fun r =>
    Ok [{| fraud_type := SOURCE_DEGRADATION; severity := sev;
           confidence := 0.95; score := (1 - r)%Q;
           potential_loss :=
             (10000 * (source_minimum (thresholds self) - sc))%Q |}])
  else Ok [].

Definition _detect_sandwich_attack (self : t) (feed : string)
    (data : FeedData) : result (list Detection) :=
  rbind (buffer (price_buffer self) feed) (fun prices =>
  if (length prices <? 3)%nat then Ok []
  else if (5 <=? length prices)%nat then
    match last_n 5 prices with
    | [r0; r1; r2; r3; r4] =>
        if Qltb (r0 * 1.02) r2 then
          rbind (py_div (py_abs (r4 - r0)) r0) (fun back =>
          if Qltb back 0.01 then
            (* the evidence divides by [r0] once more *)
            rbind (py_div (r2 - r0) r0) (fun _ =>
            Ok [{| fraud_type := SANDWICH_ATTACK; severity := HIGH;
                   confidence := 0.75; score := 0.8;
                   potential_loss := (r0 * 0.02)%Q |}])
          else Ok [])
        else Ok []
    | _ => Raise IndexError
    end
  else Ok []).

(** The body of the [try] block of [_detect_with_ml]. *)
Definition ml_try (self : t) (m : Model) (fe : FeatureExtractor)
    (feed : string) (data : FeedData) : result (list Detection) :=
  rbind (buffer (price_buffer self) feed) (fun prices =>
  if (length prices <? 50)%nat then Ok []
  else
    rbind (buffer (timestamp_buffer self) feed) (fun stamps =>
    rbind (buffer (volume_buffer self) feed) (fun volumes =>
    let df :=
      {| col_timestamp := last_n 50 stamps;
         col_price := last_n 50 prices;
         col_volume := last_n 50 volumes;
         col_source_count := repeat (default 5%Q (source_count data)) 50;
         col_latency_ms := repeat (default 100%Q (latency_ms data)) 50 |} in
    (* a data frame needs columns of one length *)
    if negb ((length (col_timestamp df) =? 50)%nat
             && (length (col_volume df) =? 50)%nat)
    then Raise ValueError
    else
      rbind (extract_all_features fe df) (fun features =>
      if (length features =? 0)%nat then Ok []
      else
        rbind (scale_features fe features) (fun scaled =>
        rbind (match score_samples m with
               | Some f =>
                   match last_n 1 scaled with
                   | [row] => rbind (f row) (fun s => Ok (- s)%Q)
                   | _ => Raise ValueError
                   end
               | None => Ok 0.5%Q
               end) (fun sc =>
        let normalized_score := py_min (py_max sc 0) 1 in
        if Qltb (anomaly_score (thresholds self)) normalized_score then
          let sev :=
            if Qltb 0.95 normalized_score then CRITICAL
            else if Qltb 0.9 normalized_score then HIGH
            else MEDIUM in
          Ok [{| fraud_type := ORACLE_SPOOFING; severity := sev;
                 confidence := normalized_score;
                 score := normalized_score;
                 potential_loss := (normalized_score * 50000)%Q |}]
        else Ok [])))))).

(** [_detect_with_ml]: whatever the [try] block raises is logged and
    swallowed, and the (still empty) list is returned. *)
Definition _detect_with_ml (self : t) (feed : string) (data : FeedData)
    : result (list Detection) :=
  match model self, feature_extractor self with
  | Some m, Some fe =>
      match ml_try self m fe feed data with
      | Ok ds => Ok ds
      | Raise _ => Ok []
      end
  | _, _ => Ok []
  end.

(** [self.<buffer>[feed_name].append(x)] on a [deque(maxlen=100)]. *)
Definition buffer_append {A} (b : gmap string (list A)) (feed : string)
    (x : A) : result (gmap string (list A)) :=
  rbind (buffer b feed) (fun d => Ok (<[feed := deque_append 100 d x]> b)).

(** The detectors of [detect_fraud], run one after the other on the
    updated buffers; the first exception ends the run. *)
Definition run_detections (self : t) (feed : string) (data : FeedData)
    : result (list Detection) :=
  rbind (_detect_price_manipulation self feed data) (fun d1 =>
  rbind (_detect_volume_anomaly self feed data) (fun d2 =>
  rbind (_detect_latency_spike self feed data) (fun d3 =>
  rbind (_detect_source_degradation self feed data) (fun d4 =>
  rbind (_detect_sandwich_attack self feed data) (fun d5 =>
  rbind (match model self with
         | Some _ => _detect_with_ml self feed data
         | None => Ok []
         end) (fun d6 =>
  Ok (d1 ++ d2 ++ d3 ++ d4 ++ d5 ++ d6))))))).

(** [detect_fraud].  [now] is the [datetime.now()] evaluated for the
    default of the timestamp.  The detector after the call is returned
    with the outcome: the buffers keep their new entries when a detector
    raises. *)
Definition detect_fraud (self : t) (data : FeedData) (now : datetime)
    : result (list Detection) * t :=
  let feed := default "UNKNOWN"%string (feed_name data) in
  let self :=
    match price_buffer self !! feed with
    | Some _ => self
    | None =>
        {| model := model self; feature_extractor := feature_extractor self;
           thresholds := thresholds self;
           price_buffer := <[feed := []]> (price_buffer self);
           volume_buffer := <[feed := []]> (volume_buffer self);
           timestamp_buffer := <[feed := []]> (timestamp_buffer self) |}
    end in
  match buffer_append (price_buffer self) feed (default 0%Q (price data)) with
  | Raise e => (Raise e, self)
  | Ok pb =>
      let self :=
        {| model := model self; feature_extractor := feature_extractor self;
           thresholds := thresholds self; price_buffer := pb;
           volume_buffer := volume_buffer self;
           timestamp_buffer := timestamp_buffer self |} in
      match buffer_append (volume_buffer self) feed
              (default 0%Q (volume data)) with
      | Raise e => (Raise e, self)
      | Ok vb =>
          let self :=
            {| model := model self;
               feature_extractor := feature_extractor self;
               thresholds := thresholds self;
               price_buffer := price_buffer self; volume_buffer := vb;
               timestamp_buffer := timestamp_buffer self |} in
          match buffer_append (timestamp_buffer self) feed
                  (from_option MsgStamp (ClockStamp now) (timestamp data))
          with
          | Raise e => (Raise e, self)
          | Ok tb =>
              let self :=
                {| model := model self;
                   feature_extractor := feature_extractor self;
                   thresholds := thresholds self;
                   price_buffer := price_buffer self;
                   volume_buffer := volume_buffer self;
                   timestamp_buffer := tb |} in
              (run_detections self feed data, self)
          end
      end
  end.

End FraudDetector.

(** ** hashlib.sha256 (FIPS 180-4) on byte strings *)

Module hashlib.

Definition w32 (x : Z) : Z := x mod 2 ^ 32.
Definition rotr (n x : Z) : Z :=
  Z.lor (Z.shiftr x n) (w32 (Z.shiftl x (32 - n))).

Definition Ch (x y z : Z) : Z :=
  Z.lxor (Z.land x y) (Z.land (Z.lxor x (2 ^ 32 - 1)) z).
Definition Maj (x y z : Z) : Z :=
  Z.lxor (Z.lxor (Z.land x y) (Z.land x z)) (Z.land y z).
Definition Sigma0 (x : Z) : Z :=
  Z.lxor (Z.lxor (rotr 2 x) (rotr 13 x)) (rotr 22 x).
Definition Sigma1 (x : Z) : Z :=
  Z.lxor (Z.lxor (rotr 6 x) (rotr 11 x)) (rotr 25 x).
Definition sigma0 (x : Z) : Z :=
  Z.lxor (Z.lxor (rotr 7 x) (rotr 18 x)) (Z.shiftr x 3).
Definition sigma1 (x : Z) : Z :=
  Z.lxor (Z.lxor (rotr 17 x) (rotr 19 x)) (Z.shiftr x 10).

(** The round constants (fractional parts of the cube roots of the first
    64 primes) and the initial hash value (square roots of the first 8). *)
Definition K : list Z :=
  [
   1116352408; 1899447441; 3049323471; 3921009573; 961987163;
   1508970993; 2453635748; 2870763221; 3624381080; 310598401;
   607225278; 1426881987; 1925078388; 2162078206; 2614888103;
   3248222580; 3835390401; 4022224774; 264347078; 604807628;
   770255983; 1249150122; 1555081692; 1996064986; 2554220882;
   2821834349; 2952996808; 3210313671; 3336571891; 3584528711;
   113926993; 338241895; 666307205; 773529912; 1294757372;
   1396182291; 1695183700; 1986661051; 2177026350; 2456956037;
   2730485921; 2820302411; 3259730800; 3345764771; 3516065817;
   3600352804; 4094571909; 275423344; 430227734; 506948616;
   659060556; 883997877; 958139571; 1322822218; 1537002063;
   1747873779; 1955562222; 2024104815; 2227730452; 2361852424;
   2428436474; 2756734187; 3204031479; 3329325298
  ].

Definition H0 : list Z :=
  [
   1779033703; 3144134277; 1013904242; 2773480762;
   1359893119; 2600822924; 528734635; 1541459225
  ].

Definition bytes_of (s : string) : list Z :=
  map (fun c => Z.of_nat (nat_of_ascii c)) (list_ascii_of_string s).

(** Big-endian bytes of [x], [n] of them. *)
Fixpoint be_bytes (n : nat) (x : Z) : list Z :=
  match n with
  | O => []
  | S n' => be_bytes n' (x / 256) ++ [x mod 256]
  end.

Definition pad (msg : list Z) : list Z :=
  let l := Z.of_nat (length msg) in
  let zeros := Z.to_nat ((55 - l) mod 64) in
  msg ++ [0x80] ++ repeat 0 zeros ++ be_bytes 8 (8 * l).

Fixpoint words (fuel : nat) (bs : list Z) : list Z :=
  match fuel, bs with
  | S f, b0 :: b1 :: b2 :: b3 :: rest =>
      (((b0 * 256 + b1) * 256 + b2) * 256 + b3) :: words f rest
  | _, _ => []
  end.

(** The message schedule, newest word first. *)
Fixpoint schedule (n : nat) (w : list Z) : list Z :=
  match n with
  | O => w
  | S n' =>
      schedule n'
        (w32 (sigma1 (nth 1 w 0) + nth 6 w 0
              + sigma0 (nth 14 w 0) + nth 15 w 0) :: w)
  end.

Definition round (st : list Z) (kw : Z * Z) : list Z :=
  match st with
  | [a; b; c; d; e; f; g; h] =>
      let t1 := h + Sigma1 e + Ch e f g + fst kw + snd kw in
      let t2 := Sigma0 a + Maj a b c in
      [w32 (t1 + t2); a; b; c; w32 (d + t1); e; f; g]
  | _ => st
  end.

Definition compress (h : list Z) (block : list Z) : list Z :=
  let w := rev (schedule 48 (rev block)) in
  let st := fold_left round (combine K w) h in
  map (fun p => w32 (fst p + snd p)) (combine h st).

Fixpoint blocks (fuel : nat) (ws : list Z) : list (list Z) :=
  match fuel with
  | O => []
  | S f =>
      match ws with
      | [] => []
      | _ => firstn 16 ws :: blocks f (skipn 16 ws)
      end
  end.

Definition sha256 (msg : list Z) : list Z :=
  let bs := pad msg in
  let ws := words (length bs) bs in
  fold_left compress (blocks (length ws) ws) H0.

Definition hex_digit (d : Z) : ascii :=
  if d <? 10 then ascii_of_nat (48 + Z.to_nat d)
  else ascii_of_nat (87 + Z.to_nat d).

Fixpoint hex (n : nat) (x : Z) : string :=
  match n with
  | O => EmptyString
  | S n' => (hex n' (x / 16) ++ String (hex_digit (x mod 16)) EmptyString)%string
  end.

(** [hashlib.sha256(s.encode()).hexdigest()] *)
Definition sha256_hexdigest (s : string) : string :=
  fold_right (fun w acc => (hex 8 w ++ acc)%string) EmptyString
             (sha256 (bytes_of s)).

End hashlib.

(** ** Alerts, configuration and the outside world *)

Module FraudAlert.
Record t := mk {
  id : string;
  timestamp : string;
  feed_name : string;
  fraud_type : string;
  severity : string;
  confidence : Q;
  anomaly_score : Q;
  recommended_actions : list string;
  affected_contracts : list string;
  potential_loss_usd : Q;
  is_acknowledged : bool;
  acknowledged_by : option string;
  resolution_status : string;
  tags : list string
}.
End FraudAlert.

Record PipelineConfig := mk_config {
  redis_url : string;
  webhook_url : option string;
  telegram_bot_token : option string;
  telegram_chat_id : option string;
  slack_webhook_url : option string;
  alert_cooldown_minutes : Z;
  enable_auto_circuit_break : bool;
  circuit_break_threshold : Q;
  retention_days : Z
}.

Definition default_config : PipelineConfig :=
  {| redis_url := "redis://localhost:6379";
     webhook_url := None; telegram_bot_token := None;
     telegram_chat_id := None; slack_webhook_url := None;
     alert_cooldown_minutes := 5;
     enable_auto_circuit_break := true;
     circuit_break_threshold := 0.95;
     retention_days := 30 |}.

(** Truth value of an optional string: [None] and [""] are false. *)
Definition truthy (o : option string) : bool :=
  match o with
  | Some EmptyString | None => false
  | Some _ => true
  end.

(** What the process does to the outside, in order. *)
Inductive Body :=
  | WebhookBody (a : FraudAlert.t)
  | TelegramBody (chat_id : option string) (a : FraudAlert.t)
  | SlackBody (a : FraudAlert.t).

Inductive Effect :=
  | HttpPost (url : string) (body : Body)
  | RedisSetex (key : string) (ttl_days : Z) (a : FraudAlert.t)
  | RedisLpush (key : string) (v : string)
  | RedisLtrim (key : string) (lo hi : Z)
  | RedisPublishAlert (topic : string) (a : FraudAlert.t)
  | RedisPublishBreaker (topic feed : string) (alert_id : option string)
      (ts : string).

(** The world: the [n]-th interaction with the outside reads its answer at
    index [n].  [now_at] is the clock, [http_at] the status of an HTTP
    response ([None]: the request raised, a timeout included), [redis_at]
    whether a Redis command went through. *)
Record World := mk_world {
  now_at : nat -> datetime;
  http_at : nat -> option Z;
  redis_at : nat -> bool;
  ticks : nat;
  trace : list Effect
}.

Definition advance (w : World) (e : list Effect) : World :=
  {| now_at := now_at w; http_at := http_at w; redis_at := redis_at w;
     ticks := S (ticks w); trace := trace w ++ e |}.

(** [datetime.now()] *)
Definition datetime_now (w : World) : datetime * World :=
  (now_at w (ticks w), advance w []).

(** [session.post(url, json=body, timeout=10)] *)
Definition session_post (url : string) (body : Body) (w : World)
    : option Z * World :=
  (http_at w (ticks w), advance w [HttpPost url body]).

(** One Redis command; [false] when it raises. *)
Definition redis_command (e : Effect) (w : World) : bool * World :=
  (redis_at w (ticks w), advance w [e]).

(** ** AlertNotifier *)

Module AlertNotifier.

Definition _send_webhook (config : PipelineConfig) (alert : FraudAlert.t)
    (w : World) : bool * World :=
  let '(r, w) := session_post (default ""%string (webhook_url config))
                              (WebhookBody alert) w in
  match r with
  | Some status => (status =? 200, w)
  | None => (false, w)
  end.

Definition _send_telegram (config : PipelineConfig) (alert : FraudAlert.t)
    (w : World) : bool * World :=
  let url := ("https://api.telegram.org/bot"
              ++ default ""%string (telegram_bot_token config)
              ++ "/sendMessage")%string in
  let '(r, w) := session_post url
                   (TelegramBody (telegram_chat_id config) alert) w in
  match r with
  | Some status => (status =? 200, w)
  | None => (false, w)
  end.

Definition _send_slack (config : PipelineConfig) (alert : FraudAlert.t)
    (w : World) : bool * World :=
  let '(r, w) := session_post (default ""%string (slack_webhook_url config))
                              (SlackBody alert) w in
  match r with
  | Some status => (status =? 200, w)
  | None => (false, w)
  end.

Definition _publish_redis (config : PipelineConfig) (alert : FraudAlert.t)
    (w : World) : bool * World :=
  redis_command (RedisPublishAlert "fraud:alerts" alert) w.

Definition notify_all_channels (config : PipelineConfig)
    (alert : FraudAlert.t) (w : World) : gmap string bool * World :=
  let results : gmap string bool := ∅ in
  let '(results, w) :=
    if truthy (webhook_url config) then
      let '(r, w) := _send_webhook config alert w in
      (<["webhook"%string := r]> results, w)
    else (results, w) in
  let '(results, w) :=
    if truthy (telegram_bot_token config) && truthy (telegram_chat_id config)
    then
      let '(r, w) := _send_telegram config alert w in
      (<["telegram"%string := r]> results, w)
    else (results, w) in
  let '(results, w) :=
    if truthy (slack_webhook_url config) then
      let '(r, w) := _send_slack config alert w in
      (<["slack"%string := r]> results, w)
    else (results, w) in
  let '(r, w) := _publish_redis config alert w in
  (<["redis"%string := r]> results, w).

End AlertNotifier.

(** ** FraudAlertsPipeline *)

(** The message of an [anomaly:detected]: a JSON object, every key
    optional. *)
Module Anomaly.
Record t := mk {
  feed_name : option string;
  confidence : option Q;
  score : option Q;
  potential_loss : option Q
}.
End Anomaly.

(** A message of the subscription.  [malformed]: [json.loads] raises. *)
Inductive Message :=
  | price_update (data : FeedData)
  | anomaly_detected (data : Anomaly.t)
  | malformed (channel : string).

Module FraudAlertsPipeline.

Record t := mk {
  config : PipelineConfig;
  detector : FraudDetector.t;
  deduplicator : AlertDeduplicator.t;
  alerts_generated : list FraudAlert.t;
  circuit_breaker_active : gset string;
  is_running : bool
}.

Definition __init__ (cfg : PipelineConfig) : t :=
  {| config := cfg;
     detector := FraudDetector.__init__ None;
     deduplicator := AlertDeduplicator.__init__ (alert_cooldown_minutes cfg);
     alerts_generated := [];
     circuit_breaker_active := ∅;
     is_running := false |}.

Definition set_detector (self : t) (d : FraudDetector.t) : t :=
  {| config := config self; detector := d;
     deduplicator := deduplicator self;
     alerts_generated := alerts_generated self;
     circuit_breaker_active := circuit_breaker_active self;
     is_running := is_running self |}.

Definition set_deduplicator (self : t) (d : AlertDeduplicator.t) : t :=
  {| config := config self; detector := detector self;
     deduplicator := d;
     alerts_generated := alerts_generated self;
     circuit_breaker_active := circuit_breaker_active self;
     is_running := is_running self |}.

Definition set_alerts_generated (self : t) (l : list FraudAlert.t) : t :=
  {| config := config self; detector := detector self;
     deduplicator := deduplicator self;
     alerts_generated := l;
     circuit_breaker_active := circuit_breaker_active self;
     is_running := is_running self |}.

Definition set_circuit_breaker_active (self : t) (s : gset string) : t :=
  {| config := config self; detector := detector self;
     deduplicator := deduplicator self;
     alerts_generated := alerts_generated self;
     circuit_breaker_active := s;
     is_running := is_running self |}.

(** A method of the pipeline: it may change [self], act on the world, and
    return or raise.  What was changed before a raise stays changed. *)
Definition M (A : Type) : Type := t -> World -> result A * t * World.

Definition ret {A} (a : A) : M A := fun self w => (Ok a, self, w).

Definition bind {A B} (m : M A) (k : A -> M B) : M B :=
  fun self w =>
    match m self w with
    | (Ok a, self', w') => k a self' w'
    | (Raise e, self', w') => (Raise e, self', w')
    end.

(** [try: m except Exception: pass] *)
Definition try_except (m : M unit) : M unit :=
  fun self w =>
    match m self w with
    | (_, self', w') => (Ok tt, self', w')
    end.

Definition _generate_alert_id (feed_name fraud_type : string) (w : World)
    : string * World :=
  let '(now, w) := datetime_now w in
  let data := (feed_name ++ ":" ++ fraud_type ++ ":" ++ isoformat now)%string in
  (substring 0 16 (hashlib.sha256_hexdigest data), w).

Definition actions (fraud_type : FraudType) : option (list string) :=
  match fraud_type with
  | PRICE_MANIPULATION =>
      Some ["Halt oracle updates temporarily";
            "Cross-reference with other sources";
            "Review recent oracle submissions";
            "Check for coordinated attack patterns"]%string
  | FLASH_LOAN_ATTACK =>
      Some ["CRITICAL: Pause affected contracts immediately";
            "Enable TWAP-based pricing";
            "Increase oracle heartbeat frequency";
            "Review transaction sequencing"]%string
  | ORACLE_SPOOFING =>
      Some ["Verify oracle source authenticity";
            "Check ZK proof validity";
            "Slash suspicious oracles";
            "Enable stricter deviation checks"]%string
  | SOURCE_DEGRADATION =>
      Some ["Increase minimum source threshold";
            "Activate backup oracles";
            "Monitor for oracle censorship";
            "Enable emergency mode"]%string
  | SANDWICH_ATTACK =>
      Some ["Review MEV protection measures";
            "Implement private transaction pool";
            "Add slippage protection";
            "Monitor mempool activity"]%string
  | _ => None
  end.

Definition _get_recommended_actions (fraud_type : FraudType)
    (severity : AlertSeverity) : list string :=
  let base_actions :=
    default ["Monitor closely"; "Investigate further"]%string
            (actions fraud_type) in
  if decide (severity = CRITICAL) then
    "EMERGENCY: Activate circuit breaker NOW"%string :: base_actions
  else base_actions.

Definition _get_affected_contracts (feed_name : string) : list string :=
  [("0x" ++ substring 0 40 (hashlib.sha256_hexdigest feed_name))%string].

Definition _generate_tags (fraud_type : FraudType) (severity : AlertSeverity)
    : list string :=
  let tags := [fraud_value fraud_type; severity_value severity] in
  let tags :=
    if bool_decide (severity ∈ [CRITICAL; HIGH])
    then tags ++ ["URGENT"%string] else tags in
  if bool_decide (fraud_type ∈ [FLASH_LOAN_ATTACK; SANDWICH_ATTACK])
  then tags ++ ["MEV_RELATED"%string] else tags.

Definition _create_alert (feed_name : string) (fraud_type : FraudType)
    (severity : AlertSeverity) (confidence score potential_loss : Q)
    (w : World) : FraudAlert.t * World :=
  let '(alert_id, w) :=
    _generate_alert_id feed_name (fraud_value fraud_type) w in
  let recommended_actions := _get_recommended_actions fraud_type severity in
  let affected_contracts := _get_affected_contracts feed_name in
  let '(now, w) := datetime_now w in
  ({| FraudAlert.id := alert_id;
      FraudAlert.timestamp := isoformat now;
      FraudAlert.feed_name := feed_name;
      FraudAlert.fraud_type := fraud_value fraud_type;
      FraudAlert.severity := severity_value severity;
      FraudAlert.confidence := confidence;
      FraudAlert.anomaly_score := score;
      FraudAlert.recommended_actions := recommended_actions;
      FraudAlert.affected_contracts := affected_contracts;
      FraudAlert.potential_loss_usd := potential_loss;
      FraudAlert.is_acknowledged := false;
      FraudAlert.acknowledged_by := None;
      FraudAlert.resolution_status := "OPEN";
      FraudAlert.tags := _generate_tags fraud_type severity |}, w).

(** [_store_alert]: the three Redis commands sit in one [try]; the first
    that raises ends the block, and nothing is raised to the caller. *)
Definition _store_alert (alert : FraudAlert.t) : M unit :=
  fun self w =>
    let '(ok, w) :=
      redis_command (RedisSetex ("alert:" ++ FraudAlert.id alert)
                                (retention_days (config self)) alert) w in
    if ok then
      let '(ok, w) :=
        redis_command (RedisLpush "alerts:all" (FraudAlert.id alert)) w in
      if ok then
        let '(_, w) := redis_command (RedisLtrim "alerts:all" 0 9999) w in
        (Ok tt, self, w)
      else (Ok tt, self, w)
    else (Ok tt, self, w).

Definition _send_alert (alert : FraudAlert.t) : M unit :=
  bind (fun self w =>
          (Ok tt,
           set_alerts_generated self (alerts_generated self ++ [alert]), w))
       (fun _ =>
  bind (_store_alert alert) (fun _ =>
  fun self w =>
    let '(_, w) := AlertNotifier.notify_all_channels (config self) alert w in
    (Ok tt, self, w))).

Definition _activate_circuit_breaker (feed_name : string)
    (alert : FraudAlert.t) : M unit :=
  fun self w =>
    let self :=
      set_circuit_breaker_active self
        ({[feed_name]} ∪ circuit_breaker_active self) in
    let '(now, w) := datetime_now w in
    let '(ok, w) :=
      redis_command (RedisPublishBreaker "circuit_breaker:activated"
                       feed_name (Some (FraudAlert.id alert))
                       (isoformat now)) w in
    (if ok then Ok tt else Raise ConnectionError, self, w).

Definition deactivate_circuit_breaker (feed_name : string) : M unit :=
  fun self w =>
    let self :=
      set_circuit_breaker_active self
        (circuit_breaker_active self ∖ {[feed_name]}) in
    let '(now, w) := datetime_now w in
    let '(ok, w) :=
      redis_command (RedisPublishBreaker "circuit_breaker:deactivated"
                       feed_name None (isoformat now)) w in
    (if ok then Ok tt else Raise ConnectionError, self, w).

Definition _process_detection (feed_data : FeedData) (detection : Detection)
    : M unit :=
  fun self w =>
    let feed := default "UNKNOWN"%string (feed_name feed_data) in
    let ftype := fraud_type detection in
    let sev := severity detection in
    let '(now, w) := datetime_now w in
    let '(send, dedup) :=
      AlertDeduplicator.should_alert (deduplicator self) feed
        (fraud_value ftype) sev now in
    let self := set_deduplicator self dedup in
    if negb send then (Ok tt, self, w)
    else
      let '(alert, w) :=
        _create_alert feed ftype sev (confidence detection)
          (score detection) (potential_loss detection) w in
      bind (_send_alert alert) (fun _ =>
        fun self w =>
          if enable_auto_circuit_break (config self)
             && Qltb (circuit_break_threshold (config self))
                     (score detection)
          then _activate_circuit_breaker feed alert self w
          else (Ok tt, self, w)) self w.

(** [for detection in detections: await self._process_detection(...)] *)
Fixpoint process_detections (feed_data : FeedData) (ds : list Detection)
    : M unit :=
  match ds with
  | [] => ret tt
  | d :: ds' =>
      bind (_process_detection feed_data d) (fun _ =>
      process_detections feed_data ds')
  end.

Definition _handle_price_update (data : FeedData) : M unit :=
  fun self w =>
    let feed := default "UNKNOWN"%string (feed_name data) in
    if decide (feed ∈ circuit_breaker_active self) then (Ok tt, self, w)
    else
      let '(now, w) := datetime_now w in
      let '(r, det) := FraudDetector.detect_fraud (detector self) data now in
      let self := set_detector self det in
      match r with
      | Raise e => (Raise e, self, w)
      | Ok detections => process_detections data detections self w
      end.

Definition _handle_external_anomaly (data : Anomaly.t) : M unit :=
  fun self w =>
    let '(alert, w) :=
      _create_alert (default "UNKNOWN"%string (Anomaly.feed_name data))
        ORACLE_SPOOFING HIGH
        (default 0.8%Q (Anomaly.confidence data))
        (default 0.8%Q (Anomaly.score data))
        (default 0%Q (Anomaly.potential_loss data)) w in
    _send_alert alert self w.

Definition _process_message (message : Message) : M unit :=
  try_except
    match message with
    | price_update data => _handle_price_update data
    | anomaly_detected data => _handle_external_anomaly data
    | malformed _ => fun self w => (Raise ValueError, self, w)
    end.

(** What happens to a running pipeline: a message arrives, or an operator
    calls [deactivate_circuit_breaker]. *)
Inductive Step :=
  | receive (m : Message)
  | deactivate (feed_name : string).

Definition step (s : Step) (st : t * World) : t * World :=
  match s with
  | receive m =>
      let '(_, self, w) := _process_message m st.1 st.2 in (self, w)
  | deactivate f =>
      let '(_, self, w) := deactivate_circuit_breaker f st.1 st.2 in (self, w)
  end.

Definition run (steps : list Step) (st : t * World) : t * World :=
  fold_left (fun st s => step s st) steps st.

End FraudAlertsPipeline.

(** ** Example inputs *)

Definition example_feed : string := "ETH/USD".
Definition at_time (h m s : Z) : datetime := mk_datetime 2024 3 1 h m s 0.

(** A world whose clock advances one microsecond per reading, whose HTTP
    requests all meet [status] and whose Redis answers [redis]. *)
Definition still_world (status : option Z) (redis : bool) : World :=
  {| now_at := fun n => mk_datetime 2024 3 1 12 0 0 (Z.of_nat n);
     http_at := fun _ => status;
     redis_at := fun _ => redis;
     ticks := 0; trace := [] |}.

Definition webhook_config : PipelineConfig :=
  {| redis_url := redis_url default_config;
     webhook_url := Some "https://hooks.example/alerts"%string;
     telegram_bot_token := None; telegram_chat_id := None;
     slack_webhook_url := None;
     alert_cooldown_minutes := 5; enable_auto_circuit_break := true;
     circuit_break_threshold := 0.95; retention_days := 30 |}.

Definition example_alert : FraudAlert.t :=
  (FraudAlertsPipeline._create_alert example_feed ORACLE_SPOOFING HIGH
     0.8 0.8 0 (still_world None true)).1.

(** The events of one feed, handed to [detect_fraud] one after the other;
    the detector after the last of them. *)
Definition feed_events (events : list FeedData) (self : FraudDetector.t)
    : FraudDetector.t :=
  fold_left (fun d e => (FraudDetector.detect_fraud d e (at_time 0 0 0)).2)
            events self.

Definition eth_event (p v sources latency : Q) : FeedData :=
  {| feed_name := Some example_feed; price := Some p; volume := Some v;
     source_count := Some sources; latency_ms := Some latency;
     timestamp := None |}.

(** ** The flash-loan pattern in the words of the specification *)

(** A move from [a] to [b] of more than 10 %, upwards or downwards. *)
Definition large_rise (a b : Q) : bool :=
  negb (Qeqb a 0) && Qltb 0.1 ((b - a) / py_abs a).
Definition large_fall (a b : Q) : bool :=
  negb (Qeqb a 0) && Qltb 0.1 ((a - b) / py_abs a).

Fixpoint moves (l : list Q) : list (Q * Q) :=
  match l with
  | a :: (b :: _) as tl => (a, b) :: moves tl
  | _ => []
  end.

(** Two large moves in opposite directions among the moves of [recent]. *)
Definition opposite_large_moves (recent : list Q) : bool :=
  existsb (fun m => large_rise m.1 m.2) (moves recent)
  && existsb (fun m => large_fall m.1 m.2) (moves recent).

(** ** Observations on the pipeline *)

(** What dispatching [alert] to every configured channel does to the
    outside, in order: the webhook, Telegram, Slack, then the publication
    on [fraud:alerts]. *)
Definition channel_effects (config : PipelineConfig) (alert : FraudAlert.t)
    : list Effect :=
  (if truthy (webhook_url config)
   then [HttpPost (default ""%string (webhook_url config)) (WebhookBody alert)]
   else [])
  ++ (if truthy (telegram_bot_token config) && truthy (telegram_chat_id config)
      then [HttpPost ("https://api.telegram.org/bot"
                      ++ default ""%string (telegram_bot_token config)
                      ++ "/sendMessage")%string
                     (TelegramBody (telegram_chat_id config) alert)]
      else [])
  ++ (if truthy (slack_webhook_url config)
      then [HttpPost (default ""%string (slack_webhook_url config))
                     (SlackBody alert)]
      else [])
  ++ [RedisPublishAlert "fraud:alerts" alert].

(** The rolling history of one feed. *)
Definition history (d : FraudDetector.t) (feed : string)
    : option (list Q) * option (list Q) * option (list stamp) :=
  (FraudDetector.price_buffer d !! feed,
   FraudDetector.volume_buffer d !! feed,
   FraudDetector.timestamp_buffer d !! feed).


(** ** The confidence of a detection *)

Definition confidence_ok (d : Detection) : Prop :=
  (0 <= confidence d <= 1)%Q.

(** ** Sequences of calls to the deduplicator *)

(** One call of [should_alert], with the clock it reads. *)
Record Call := mk_call {
  call_feed : string;
  call_type : string;
  call_severity : AlertSeverity;
  call_now : datetime
}.

(** The calls made one after the other: their answers and the deduplicator
    they leave. *)
Fixpoint run_calls (self : AlertDeduplicator.t) (calls : list Call)
    : list bool * AlertDeduplicator.t :=
  match calls with
  | [] => ([], self)
  | c :: rest =>
      let '(b, self') :=
        AlertDeduplicator.should_alert self (call_feed c) (call_type c)
          (call_severity c) (call_now c) in
      let '(bs, self'') := run_calls self' rest in
      (b :: bs, self'')
  end.

(** Whether a call with its answer is one that [_increment_count] counts
    under key [k]. *)
Definition counted (k : string) (cb : Call * bool) : bool :=
  cb.2 && negb (bool_decide (call_severity cb.1 = CRITICAL))
  && bool_decide (AlertDeduplicator.key (call_feed cb.1) (call_type cb.1) = k).

(** Reading a key back: the text before and after its last colon. *)
Fixpoint rsplit_colon (s : string) : option (string * string) :=
  match s with
  | EmptyString => None
  | String c s' =>
      match rsplit_colon s' with
      | Some (a, b) => Some (String c a, b)
      | None => if Ascii.eqb c ":" then Some (EmptyString, s') else None
      end
  end.

(** ** The rolling buffers of the detector *)

(** The three buffers hold the same feeds, with as many entries each, never
    more than the capacity of the deques. *)
Definition buffers_ok (d : FraudDetector.t) : Prop :=
  forall f : string,
    match FraudDetector.price_buffer d !! f,
          FraudDetector.volume_buffer d !! f,
          FraudDetector.timestamp_buffer d !! f with
    | Some p, Some v, Some t =>
        length p = length v /\ length v = length t /\ (length p <= 100)%nat
    | None, None, None => True
    | _, _, _ => False
    end.

(** The thresholds that [FraudDetector.__init__] sets. *)
Definition init_thresholds : Thresholds :=
  FraudDetector.thresholds (FraudDetector.__init__ None).






(** What a pipeline keeps over its whole life. *)
Definition settled (cfg : PipelineConfig) (self : FraudAlertsPipeline.t)
    : Prop :=
  FraudAlertsPipeline.config self = cfg
  /\ AlertDeduplicator.cooldown_minutes (FraudAlertsPipeline.deduplicator self)
     = alert_cooldown_minutes cfg
  /\ buffers_ok (FraudAlertsPipeline.detector self)
  /\ FraudDetector.thresholds (FraudAlertsPipeline.detector self) = init_thresholds
  /\ FraudDetector.model (FraudAlertsPipeline.detector self) = None.


(** * Properties *)

(** ** Numbers *)

Lemma Qltb_lt (a b : Q) : Qltb a b = true <-> (a < b)%Q.
Proof.
  unfold Qltb. pose proof (Qlt_alt a b) as H.
  destruct (a ?= b)%Q; split; intros H'; try congruence; try (now apply H);
    apply H in H'; congruence.
Qed.

Lemma Qltb_ge (a b : Q) : Qltb a b = false <-> (b <= a)%Q.
Proof.
  split.
  - intros H. apply Qnot_lt_le. intros Hlt. apply Qltb_lt in Hlt. congruence.
  - intros H. destruct (Qltb a b) eqn:E; [|reflexivity].
    apply Qltb_lt in E. exfalso. apply (Qlt_not_le _ _ E H).
Qed.

Lemma Qeqb_eq (a b : Q) : Qeqb a b = true <-> (a == b)%Q.
Proof.
  unfold Qeqb. pose proof (Qeq_alt a b) as H.
  destruct (a ?= b)%Q; split; intros H'; try congruence; try (now apply H);
    apply H in H'; congruence.
Qed.

Lemma py_min_le_r (a b : Q) : (py_min a b <= b)%Q.
Proof.
  unfold py_min. destruct (Qltb b a) eqn:E.
  - apply Qle_refl.
  - now apply Qltb_ge in E.
Qed.

Lemma py_min_ge (a b c : Q) : (c <= a)%Q -> (c <= b)%Q -> (c <= py_min a b)%Q.
Proof. unfold py_min. now destruct (Qltb b a). Qed.

Lemma py_max_ge_r (a b : Q) : (b <= py_max a b)%Q.
Proof.
  unfold py_max. destruct (Qltb a b) eqn:E.
  - apply Qle_refl.
  - now apply Qltb_ge in E.
Qed.

Lemma py_div_Ok (a b q : Q) : py_div a b = Ok q -> ~ (b == 0)%Q /\ q = (a / b)%Q.
Proof.
  unfold py_div. destruct (Qeqb b 0) eqn:E; [discriminate|].
  intros [= <-]. split; [|reflexivity].
  intros H. apply Qeqb_eq in H. congruence.
Qed.

Lemma rbind_Ok {A B} (r : result A) (k : A -> result B) (b : B) :
  rbind r k = Ok b -> exists a, r = Ok a /\ k a = Ok b.
Proof. destruct r; simpl; [eauto|discriminate]. Qed.

Lemma clamp_ok (a b c : Q) :
  (0 < b)%Q -> (0 <= a)%Q -> py_div a b = Ok c -> (0 <= py_min c 1 <= 1)%Q.
Proof.
  intros Hb Ha Hd. apply py_div_Ok in Hd as [_ ->]. split.
  - apply py_min_ge; [|discriminate].
    apply Qle_shift_div_l; [assumption|]. now rewrite Qmult_0_l.
  - apply py_min_le_r.
Qed.

Ltac rbinds :=
  repeat match goal with
  | H : rbind _ _ = Ok _ |- _ =>
      apply rbind_Ok in H; destruct H as (? & ? & H)
  | H : (if ?c then _ else _) = Ok _ |- _ => destruct c eqn:?
  | H : match ?l with _ => _ end = Ok _ |- _ => destruct l eqn:?
  | H : Ok _ = Ok _ |- _ => injection H as <-
  | H : Raise _ = Ok _ |- _ => discriminate H
  end.


Lemma above_positive (a b : Q) : (0 < b)%Q -> Qltb b a = true -> (0 <= a)%Q.
Proof. intros Hb H. apply Qltb_lt in H. lra. Qed.

Lemma clamp01 (s : Q) : (0 <= py_min (py_max s 0) 1 <= 1)%Q.
Proof.
  split; [|apply py_min_le_r].
  apply py_min_ge; [apply py_max_ge_r|discriminate].
Qed.

Ltac confidences :=
  repeat match goal with |- Forall _ _ => constructor end;
  unfold confidence_ok; simpl;
  first [ split; discriminate
        | apply clamp01
        | eapply clamp_ok; [| |eassumption];
          [try lra|eapply above_positive; [|eassumption]; lra] ].

(** ** Strings, [isoformat] and the digest *)

Section Strings.
Local Open Scope string_scope.






End Strings.




Section Digest.
Import hashlib.







End Digest.

(** ** AlertDeduplicator *)

Section Deduplicator.
Import AlertDeduplicator.

Variable self : AlertDeduplicator.t.
Variables feed ftype : string.

Lemma should_alert_critical (now : datetime) :
  should_alert self feed ftype CRITICAL now
  = (true, set_recent self (key feed ftype) now).
Proof. reflexivity. Qed.

Lemma should_alert_non_critical (sev : AlertSeverity) (now : datetime) :
  sev <> CRITICAL ->
  should_alert self feed ftype sev now
  = if in_cooldown self (key feed ftype) now then (false, self)
    else (true, _increment_count (set_recent self (key feed ftype) now)
                                 (key feed ftype)).
Proof. intros H. unfold should_alert. now destruct (decide (sev = CRITICAL)). Qed.

Lemma in_cooldown_set_recent (k : string) (last now : datetime) :
  in_cooldown (set_recent self k last) k now
  = Qltb (elapsed_minutes now last) (inject_Z (cooldown_minutes self)).
Proof. unfold in_cooldown. simpl. now rewrite lookup_insert_eq. Qed.

Lemma in_cooldown_increment_count (k k' : string) (d : AlertDeduplicator.t)
    (now : datetime) :
  in_cooldown (_increment_count d k') k now = in_cooldown d k now.
Proof. reflexivity. Qed.

(** An admitted call always moves [last_alert_at] to the current time. *)
Lemma should_alert_true_sets_recent (sev : AlertSeverity)
    (now : datetime) :
  (should_alert self feed ftype sev now).1 = true ->
  recent_alerts (should_alert self feed ftype sev now).2 !! key feed ftype
  = Some now.
Proof.
  unfold should_alert. destruct (decide (sev = CRITICAL)); simpl.
  - intros _. apply lookup_insert_eq.
  - destruct (in_cooldown _ _ _); simpl; [discriminate|].
    intros _. apply lookup_insert_eq.
Qed.

(** An admitted call that is not CRITICAL counts the alert. *)
Lemma should_alert_non_critical_counts (sev : AlertSeverity)
    (now : datetime) :
  sev <> CRITICAL ->
  (should_alert self feed ftype sev now).1 = true ->
  alert_counts (should_alert self feed ftype sev now).2 !! key feed ftype
  = Some (default 0 (alert_counts self !! key feed ftype) + 1).
Proof.
  intros Hs. rewrite should_alert_non_critical by assumption.
  destruct (in_cooldown _ _ _); simpl; [discriminate|].
  intros _. apply lookup_insert_eq.
Qed.

(** A CRITICAL call leaves every counter as it was. *)
Lemma should_alert_critical_counts (now : datetime) :
  alert_counts (should_alert self feed ftype CRITICAL now).2
  = alert_counts self.
Proof. reflexivity. Qed.

End Deduplicator.

(** C1. A CRITICAL call to [should_alert] returns true whatever the cooldown
    state of its key and sets the key's [last_alert_at] to the current time;
    a later call of another severity for the same key, less than
    [cooldown_minutes] after the CRITICAL one, is rejected. *)
Theorem critical_accepted_and_restarts_cooldown
    (self : AlertDeduplicator.t) (feed ftype : string) (now later : datetime)
    (sev : AlertSeverity) :
  sev <> CRITICAL ->
  (AlertDeduplicator.elapsed_minutes later now
   < inject_Z (AlertDeduplicator.cooldown_minutes self))%Q ->
  let r := AlertDeduplicator.should_alert self feed ftype CRITICAL now in
  r.1 = true
  /\ AlertDeduplicator.recent_alerts r.2 !! AlertDeduplicator.key feed ftype
     = Some now
  /\ (AlertDeduplicator.should_alert r.2 feed ftype sev later).1 = false.
Proof.
  intros Hsev Hlt r. subst r. rewrite should_alert_critical. simpl.
  split; [reflexivity|]. split; [apply lookup_insert_eq|].
  rewrite should_alert_non_critical by assumption.
  rewrite in_cooldown_set_recent.
  apply Qltb_lt in Hlt. now rewrite Hlt.
Qed.

Lemma critical_accepted_and_restarts_cooldown_witness :
  let self :=
    (AlertDeduplicator.should_alert (AlertDeduplicator.__init__ 5)
       example_feed "PRICE_MANIPULATION" HIGH (at_time 12 0 0)).2 in
  let r := AlertDeduplicator.should_alert self example_feed
             "PRICE_MANIPULATION" CRITICAL (at_time 12 1 0) in
  r.1 = true
  /\ AlertDeduplicator.recent_alerts r.2
       !! AlertDeduplicator.key example_feed "PRICE_MANIPULATION"
     = Some (at_time 12 1 0)
  /\ (AlertDeduplicator.should_alert r.2 example_feed "PRICE_MANIPULATION"
        MEDIUM (at_time 12 5 30)).1 = false.
Proof.
  apply (critical_accepted_and_restarts_cooldown _ example_feed
           "PRICE_MANIPULATION" (at_time 12 1 0) (at_time 12 5 30) MEDIUM).
  - discriminate.
  - reflexivity.
Defined.

(** C5. Two calls of [should_alert] for one key, neither CRITICAL, made
    within [cooldown_minutes] of each other from a state in which the key is
    not in cooldown: the first is admitted and the second is not, so exactly
    one of the two returns true. *)
Theorem two_detections_one_alert
    (self : AlertDeduplicator.t) (feed ftype : string)
    (s1 s2 : AlertSeverity) (t1 t2 : datetime) :
  s1 <> CRITICAL -> s2 <> CRITICAL ->
  AlertDeduplicator.in_cooldown self (AlertDeduplicator.key feed ftype) t1
  = false ->
  (Qabs (AlertDeduplicator.elapsed_minutes t2 t1)
   < inject_Z (AlertDeduplicator.cooldown_minutes self))%Q ->
  let r1 := AlertDeduplicator.should_alert self feed ftype s1 t1 in
  let r2 := AlertDeduplicator.should_alert r1.2 feed ftype s2 t2 in
  r1.1 = true /\ r2.1 = false /\ xorb r1.1 r2.1 = true.
Proof.
  intros H1 H2 Hfree Hnear r1 r2. subst r1 r2.
  rewrite (should_alert_non_critical self) by assumption.
  rewrite Hfree. simpl.
  rewrite should_alert_non_critical by assumption.
  rewrite in_cooldown_increment_count, in_cooldown_set_recent.
  assert (Hlt : Qltb (AlertDeduplicator.elapsed_minutes t2 t1)
                  (inject_Z (AlertDeduplicator.cooldown_minutes self)) = true).
  { apply Qltb_lt. eapply Qle_lt_trans; [apply Qle_Qabs|exact Hnear]. }
  simpl. rewrite Hlt. auto.
Qed.

Lemma two_detections_one_alert_witness :
  let self := AlertDeduplicator.__init__ 5 in
  let r1 := AlertDeduplicator.should_alert self example_feed "VOLUME_ANOMALY"
              MEDIUM (at_time 9 0 0) in
  let r2 := AlertDeduplicator.should_alert r1.2 example_feed "VOLUME_ANOMALY"
              HIGH (at_time 9 4 59) in
  r1.1 = true /\ r2.1 = false /\ xorb r1.1 r2.1 = true.
Proof.
  apply (two_detections_one_alert (AlertDeduplicator.__init__ 5) example_feed
           "VOLUME_ANOMALY" MEDIUM HIGH (at_time 9 0 0) (at_time 9 4 59)).
  - discriminate.
  - discriminate.
  - reflexivity.
  - reflexivity.
Defined.

(** C8. Evaluation at the failing input: on a fresh deduplicator a CRITICAL
    detection is admitted and its key's [last_alert_at] is set, but the
    per-key counter is not incremented (the key has no count at all); the
    same call with severity HIGH counts 1. *)
Theorem critical_admission_is_not_counted :
  let self := AlertDeduplicator.__init__ 5 in
  let k := AlertDeduplicator.key example_feed "SOURCE_DEGRADATION" in
  let crit := AlertDeduplicator.should_alert self example_feed
                "SOURCE_DEGRADATION" CRITICAL (at_time 12 0 0) in
  let high := AlertDeduplicator.should_alert self example_feed
                "SOURCE_DEGRADATION" HIGH (at_time 12 0 0) in
  crit.1 = true
  /\ AlertDeduplicator.recent_alerts crit.2 !! k = Some (at_time 12 0 0)
  /\ AlertDeduplicator.get_alert_statistics crit.2 !! k = None
  /\ high.1 = true
  /\ AlertDeduplicator.get_alert_statistics high.2 !! k = Some 1.
Proof. vm_compute. auto. Qed.

(** ** AlertNotifier *)

Lemma send_webhook_true (config : PipelineConfig) (alert : FraudAlert.t)
    (w : World) :
  (AlertNotifier._send_webhook config alert w).1 = true
  <-> http_at w (ticks w) = Some 200.
Proof.
  unfold AlertNotifier._send_webhook, session_post. simpl.
  destruct (http_at w (ticks w)) as [status|]; simpl.
  - rewrite Z.eqb_eq. split; congruence.
  - split; discriminate.
Qed.

(** C9, as stated, fails: a 201 answer is a 2xx status and the channel's
    result is false. *)
Lemma webhook_201_is_recorded_false :
  ~ (forall (config : PipelineConfig) (alert : FraudAlert.t) (w : World)
            (status : Z),
        http_at w (ticks w) = Some status ->
        ((AlertNotifier._send_webhook config alert w).1 = true
         <-> 200 <= status <= 299)).
Proof.
  intros H.
  specialize (H webhook_config example_alert (still_world (Some 201) true) 201
                eq_refl).
  destruct H as [_ H]. specialize (H ltac:(lia)).
  apply send_webhook_true in H. discriminate H.
Qed.

(** C9, amended. When a webhook is configured, the result recorded for the
    webhook channel is the one of [_send_webhook], and it is true exactly
    when the POST is answered with status 200; any other status, the other
    2xx included, and a request that raises are recorded false. *)
Theorem webhook_recorded_true_iff_200
    (config : PipelineConfig) (alert : FraudAlert.t) (w : World) :
  truthy (webhook_url config) = true ->
  exists b : bool,
    (AlertNotifier.notify_all_channels config alert w).1 !! "webhook"%string
    = Some b
    /\ b = (AlertNotifier._send_webhook config alert w).1
    /\ (b = true <-> http_at w (ticks w) = Some 200).
Proof.
  intros Hcfg.
  exists (AlertNotifier._send_webhook config alert w).1.
  split; [|split; [reflexivity|apply send_webhook_true]].
  unfold AlertNotifier.notify_all_channels. rewrite Hcfg.
  destruct (AlertNotifier._send_webhook config alert w) as [r w1]. simpl fst.
  repeat case_match; simplify_eq; simpl;
    repeat (rewrite lookup_insert_ne by discriminate);
    apply lookup_insert_eq.
Qed.

Lemma webhook_recorded_true_iff_200_witness :
  exists b : bool,
    (AlertNotifier.notify_all_channels webhook_config example_alert
       (still_world (Some 204) true)).1 !! "webhook"%string = Some b
    /\ b = (AlertNotifier._send_webhook webhook_config example_alert
              (still_world (Some 204) true)).1
    /\ (b = true
        <-> http_at (still_world (Some 204) true)
              (ticks (still_world (Some 204) true)) = Some 200).
Proof.
  apply (webhook_recorded_true_iff_200 webhook_config example_alert
           (still_world (Some 204) true)).
  reflexivity.
Defined.

(** ** FraudDetector *)

(** C2. Evaluation at the failing input: after the prices 100, 120, 120 the
    price 150 triggers the price-manipulation detector and a CRITICAL
    FLASH_LOAN_ATTACK of confidence 0.85 and twice the loss is emitted with
    it, although no move among the last four prices goes down.  Conversely,
    after 100, 100, 120 the price 100 triggers the detector, the last four
    prices hold a rise and a fall of more than 10 %, and no FLASH_LOAN_ATTACK
    is emitted. *)
Theorem flash_loan_emitted_without_reversal :
  let missed :=
    FraudDetector.detect_fraud
      (feed_events [eth_event 100 10 5 20; eth_event 100 10 5 20;
                    eth_event 120 10 5 20] (FraudDetector.__init__ None))
      (eth_event 100 10 5 20) (at_time 0 0 0) in
  let before :=
    feed_events [eth_event 100 10 5 20; eth_event 120 10 5 20;
                 eth_event 120 10 5 20] (FraudDetector.__init__ None) in
  let r := FraudDetector.detect_fraud before (eth_event 150 10 5 20)
             (at_time 0 0 0) in
  FraudDetector.price_buffer r.2 !! example_feed
  = Some [100; 120; 120; 150]%Q
  /\ opposite_large_moves [100; 120; 120; 150]%Q = false
  /\ (exists pm fl,
       r.1 = Ok [pm; fl]
       /\ fraud_type pm = PRICE_MANIPULATION
       /\ fraud_type fl = FLASH_LOAN_ATTACK
       /\ severity fl = CRITICAL
       /\ confidence fl = 0.85%Q
       /\ (potential_loss fl == 2 * potential_loss pm)%Q)
  /\ opposite_large_moves [100; 100; 120; 100]%Q = true
  /\ exists pm, missed.1 = Ok [pm] /\ fraud_type pm = PRICE_MANIPULATION.
Proof.
  split; [vm_compute; reflexivity|]. split; [vm_compute; reflexivity|].
  split.
  - eexists _, _. split; [vm_compute; reflexivity|].
    repeat split; reflexivity.
  - split; [vm_compute; reflexivity|].
    eexists. split; [vm_compute; reflexivity|reflexivity].
Qed.

(** C3. Evaluation at the failing input: on the prices 0, 1, 1, 1 the event
    with price 1 and a single source makes the sandwich detector divide by
    zero.  The source-degradation detector, run on the same state, returns a
    CRITICAL result, but [detect_fraud] raises and returns none, and the
    pipeline handles the message without generating an alert.  On the
    prices 1, 1, 1, 1 the same event generates one. *)
Theorem sandwich_exception_suppresses_detections :
  let events := [eth_event 0 10 5 20; eth_event 1 10 5 20;
                 eth_event 1 10 5 20; eth_event 1 10 5 20] in
  let last := eth_event 1 10 1 20 in
  let before := feed_events events (FraudDetector.__init__ None) in
  let r := FraudDetector.detect_fraud before last (at_time 0 0 0) in
  let p := FraudAlertsPipeline.set_detector
             (FraudAlertsPipeline.__init__ default_config) before in
  let out := FraudAlertsPipeline._process_message (price_update last) p
               (still_world None true) in
  let sound :=
    FraudAlertsPipeline._process_message (price_update last)
      (FraudAlertsPipeline.set_detector
         (FraudAlertsPipeline.__init__ default_config)
         (feed_events (repeat (eth_event 1 10 5 20) 4)
                      (FraudDetector.__init__ None)))
      (still_world None true) in
  r.1 = Raise ZeroDivisionError
  /\ FraudDetector._detect_sandwich_attack r.2 example_feed last
     = Raise ZeroDivisionError
  /\ (exists d,
        FraudDetector._detect_source_degradation r.2 example_feed last
        = Ok [d]
        /\ fraud_type d = SOURCE_DEGRADATION /\ severity d = CRITICAL)
  /\ out.1.1 = Ok tt
  /\ FraudAlertsPipeline.alerts_generated out.1.2 = []
  /\ trace out.2 = []
  /\ map FraudAlert.fraud_type
         (FraudAlertsPipeline.alerts_generated sound.1.2)
     = ["SOURCE_DEGRADATION"%string].
Proof.
  split; [vm_compute; reflexivity|]. split; [vm_compute; reflexivity|].
  split; [eexists; split; [vm_compute; reflexivity|split; reflexivity]|].
  split; [vm_compute; reflexivity|]. split; [vm_compute; reflexivity|].
  split; vm_compute; reflexivity.
Qed.

(** Every detector on its own returns confidences in [[0,1]]. *)
Section Confidence.
Import FraudDetector.
Variable self : FraudDetector.t.
Variable feed : string.
Variable data : FeedData.
Variable ds : list Detection.

Lemma price_manipulation_confidence :
  (0 < price_change (thresholds self))%Q ->
  _detect_price_manipulation self feed data = Ok ds ->
  Forall confidence_ok ds.
Proof.
  intros Hthr H. unfold _detect_price_manipulation in H.
  rbinds; confidences.
Qed.

Lemma volume_anomaly_confidence :
  (0 < volume_spike (thresholds self))%Q ->
  _detect_volume_anomaly self feed data = Ok ds ->
  Forall confidence_ok ds.
Proof.
  intros Hthr H. unfold _detect_volume_anomaly in H.
  rbinds; confidences.
Qed.

Lemma latency_spike_confidence :
  _detect_latency_spike self feed data = Ok ds -> Forall confidence_ok ds.
Proof. intros H. unfold _detect_latency_spike in H. rbinds; confidences. Qed.

Lemma source_degradation_confidence :
  _detect_source_degradation self feed data = Ok ds ->
  Forall confidence_ok ds.
Proof.
  intros H. unfold _detect_source_degradation in H. rbinds; confidences.
Qed.

Lemma sandwich_attack_confidence :
  _detect_sandwich_attack self feed data = Ok ds -> Forall confidence_ok ds.
Proof.
  intros H. unfold _detect_sandwich_attack in H. rbinds; confidences.
Qed.

Lemma ml_confidence :
  _detect_with_ml self feed data = Ok ds -> Forall confidence_ok ds.
Proof.
  intros H. unfold _detect_with_ml in H.
  destruct (model self) as [m|]; [|injection H as <-; constructor].
  destruct (feature_extractor self) as [fe|];
    [|injection H as <-; constructor].
  destruct (ml_try self m fe feed data) as [l|e] eqn:E;
    injection H as <-; [|constructor].
  unfold ml_try in E. rbinds; confidences.
Qed.
End Confidence.

Lemma run_detections_confidence (self : FraudDetector.t) (feed : string)
    (data : FeedData) (ds : list Detection) :
  (0 < price_change (FraudDetector.thresholds self))%Q ->
  (0 < volume_spike (FraudDetector.thresholds self))%Q ->
  FraudDetector.run_detections self feed data = Ok ds ->
  Forall confidence_ok ds.
Proof.
  intros Hp Hv H. unfold FraudDetector.run_detections in H.
  repeat match goal with
  | H : rbind _ _ = Ok _ |- _ =>
      apply rbind_Ok in H; destruct H as (? & ? & H)
  end.
  injection H as <-.
  repeat (apply Forall_app; split);
    eauto using price_manipulation_confidence, volume_anomaly_confidence,
      latency_spike_confidence, source_degradation_confidence,
      sandwich_attack_confidence.
  destruct (FraudDetector.model self).
  - eauto using ml_confidence.
  - match goal with H : Ok _ = Ok _ |- _ => injection H as <- end. constructor.
Qed.

(** C6. Whatever the event and the rolling history, every detection that
    [detect_fraud] returns, from any of its detectors, has a confidence in
    the closed interval [[0,1]].  The two thresholds that divide a
    confidence are positive, as [__init__] sets them. *)
Theorem detect_fraud_confidence_in_unit_interval
    (self : FraudDetector.t) (data : FeedData) (now : datetime)
    (ds : list Detection) :
  (0 < price_change (FraudDetector.thresholds self))%Q ->
  (0 < volume_spike (FraudDetector.thresholds self))%Q ->
  (FraudDetector.detect_fraud self data now).1 = Ok ds ->
  Forall confidence_ok ds.
Proof.
  intros Hp Hv H. unfold FraudDetector.detect_fraud in H.
  repeat case_match; simpl in H; try discriminate;
    (eapply run_detections_confidence; [| |exact H]); simpl; assumption.
Qed.

Lemma detect_fraud_confidence_in_unit_interval_witness :
  exists ds,
    (FraudDetector.detect_fraud
       (feed_events (repeat (eth_event 2000 1000 5 20) 9)
                    (FraudDetector.__init__ None))
       (eth_event 2400 8000 1 1500) (at_time 0 0 0)).1 = Ok ds
    /\ length ds = 4%nat
    /\ Forall confidence_ok ds.
Proof.
  eexists. split; [vm_compute; reflexivity|]. split; [reflexivity|].
  apply (detect_fraud_confidence_in_unit_interval
           (feed_events (repeat (eth_event 2000 1000 5 20) 9)
                        (FraudDetector.__init__ None))
           (eth_event 2400 8000 1 1500) (at_time 0 0 0)).
  - reflexivity.
  - reflexivity.
  - vm_compute; reflexivity.
Defined.

(** ** FraudAlertsPipeline *)

(** The implementation of SHA-256 on the test vectors of FIPS 180-4. *)
Example sha256_abc :
  hashlib.sha256_hexdigest "abc"
  = "ba7816bf8f01cfea414140de5dae2223b00361a396177a9cb410ff61f20015ad"%string.
Proof. vm_compute. reflexivity. Qed.

Example sha256_empty :
  hashlib.sha256_hexdigest ""
  = "e3b0c44298fc1c149afbf4c8996fb92427ae41e4649b934ca495991b7852b855"%string.
Proof. vm_compute. reflexivity. Qed.

(** [_create_alert] reads the clock twice: the id digests the first
    reading, the [timestamp] field of the alert is the second. *)
Lemma create_alert_clock_reads (feed : string) (ft : FraudType)
    (sev : AlertSeverity) (c s l : Q) (w : World) :
  let a := (FraudAlertsPipeline._create_alert feed ft sev c s l w).1 in
  FraudAlert.id a
  = (FraudAlertsPipeline._generate_alert_id feed (fraud_value ft) w).1
  /\ FraudAlert.timestamp a = isoformat (now_at w (S (ticks w))).
Proof. split; reflexivity. Qed.




Example alert_id_example :
  (FraudAlertsPipeline._generate_alert_id "ETH/USD" "PRICE_MANIPULATION"
     {| now_at := fun _ => mk_datetime 2024 1 1 0 0 0 1;
        http_at := fun _ => None; redis_at := fun _ => true;
        ticks := 0; trace := [] |}).1
  = "916d6636d97004ab"%string.
Proof. vm_compute. reflexivity. Qed.

Section Pipeline.
Import FraudAlertsPipeline.

Lemma notify_all_channels_trace config alert w :
  trace (AlertNotifier.notify_all_channels config alert w).2
  = trace w ++ channel_effects config alert.
Proof.
  unfold AlertNotifier.notify_all_channels, channel_effects,
    AlertNotifier._send_webhook, AlertNotifier._send_telegram,
    AlertNotifier._send_slack, AlertNotifier._publish_redis,
    session_post, redis_command.
  repeat case_match; simplify_eq; simpl;
    rewrite <- ?app_assoc; reflexivity.
Qed.

Lemma store_alert_spec alert self w :
  exists w' rest,
    _store_alert alert self w = (Ok tt, self, w')
    /\ trace w'
       = trace w ++ RedisSetex ("alert:" ++ FraudAlert.id alert)
                      (retention_days (config self)) alert :: rest.
Proof.
  unfold _store_alert, redis_command.
  repeat case_match; simplify_eq; do 2 eexists;
    (split; [reflexivity|]); unfold advance; simpl;
    rewrite <- ?app_assoc; simpl; reflexivity.
Qed.

Lemma send_alert_spec alert self w :
  exists w' rest,
    _send_alert alert self w
    = (Ok tt, set_alerts_generated self (alerts_generated self ++ [alert]),
       w')
    /\ trace w'
       = trace w ++ RedisSetex ("alert:" ++ FraudAlert.id alert)
                      (retention_days (config self)) alert :: rest
                 ++ channel_effects (config self) alert.
Proof.
  unfold _send_alert, bind.
  destruct (store_alert_spec alert
              (set_alerts_generated self (alerts_generated self ++ [alert]))
              w) as (w1 & rest & -> & Ht).
  destruct (AlertNotifier.notify_all_channels _ alert w1) as [res w2] eqn:E.
  exists w2, rest. split; [reflexivity|].
  change w2 with (res, w2).2. rewrite <- E.
  rewrite notify_all_channels_trace, Ht. simpl.
  rewrite <- app_assoc. reflexivity.
Qed.

#[local] Opaque hashlib.sha256_hexdigest isoformat.

Lemma create_alert_fields feed ft sev c s l w :
  let a := (_create_alert feed ft sev c s l w).1 in
  FraudAlert.feed_name a = feed
  /\ FraudAlert.fraud_type a = fraud_value ft
  /\ FraudAlert.severity a = severity_value sev.
Proof. unfold _create_alert, _generate_alert_id, datetime_now. simpl. auto. Qed.

Lemma create_alert_trace feed ft sev c s l w :
  trace (_create_alert feed ft sev c s l w).2 = trace w.
Proof.
  unfold _create_alert, _generate_alert_id, datetime_now, advance. simpl.
  now rewrite !app_nil_r.
Qed.

(** An external anomaly leaves the detector, the deduplicator and the
    breakers alone. *)
Lemma process_anomaly_frame (data : Anomaly.t)
    (self : FraudAlertsPipeline.t) (w : World) :
  let out := _process_message (anomaly_detected data) self w in
  detector out.1.2 = detector self
  /\ deduplicator out.1.2 = deduplicator self
  /\ circuit_breaker_active out.1.2 = circuit_breaker_active self.
Proof.
  intros out. subst out.
  unfold _process_message, try_except, _handle_external_anomaly.
  destruct (_create_alert _ _ _ _ _ _ _) as [alert w1].
  destruct (send_alert_spec alert self w1) as (w2 & rest & -> & _).
  simpl. auto.
Qed.

(** C10. Every message of [anomaly:detected] yields an alert of type
    ORACLE_SPOOFING for its feed, whatever the state of the pipeline: the
    alert is appended to the generated alerts, its storage is attempted
    and it is dispatched to every configured channel.  Neither the
    deduplicator nor the set of active breakers is consulted or changed,
    so a cooldown or an active breaker of the feed does not stop it. *)
Theorem external_anomaly_always_alerts
    (data : Anomaly.t) (self : FraudAlertsPipeline.t) (w : World) :
  let feed := default "UNKNOWN"%string (Anomaly.feed_name data) in
  let out := _process_message (anomaly_detected data) self w in
  exists alert rest,
    out.1.1 = Ok tt
    /\ FraudAlert.feed_name alert = feed
    /\ FraudAlert.fraud_type alert = "ORACLE_SPOOFING"%string
    /\ FraudAlert.severity alert = "HIGH"%string
    /\ alerts_generated out.1.2 = alerts_generated self ++ [alert]
    /\ trace out.2
       = trace w
         ++ RedisSetex ("alert:" ++ FraudAlert.id alert)
              (retention_days (config self)) alert
            :: rest ++ channel_effects (config self) alert
    /\ deduplicator out.1.2 = deduplicator self
    /\ circuit_breaker_active out.1.2 = circuit_breaker_active self
    /\ detector out.1.2 = detector self.
Proof.
  intros feed out. subst out.
  unfold _process_message, try_except, _handle_external_anomaly.
  destruct (_create_alert feed ORACLE_SPOOFING HIGH
              (default 0.8%Q (Anomaly.confidence data))
              (default 0.8%Q (Anomaly.score data))
              (default 0%Q (Anomaly.potential_loss data)) w)
    as [alert w1] eqn:E.
  fold feed. rewrite E.
  destruct (send_alert_spec alert self w1) as (w2 & rest & -> & Ht).
  exists alert, rest. simpl.
  pose proof (create_alert_fields feed ORACLE_SPOOFING HIGH
                (default 0.8%Q (Anomaly.confidence data))
                (default 0.8%Q (Anomaly.score data))
                (default 0%Q (Anomaly.potential_loss data)) w) as Hf.
  pose proof (create_alert_trace feed ORACLE_SPOOFING HIGH
                (default 0.8%Q (Anomaly.confidence data))
                (default 0.8%Q (Anomaly.score data))
                (default 0%Q (Anomaly.potential_loss data)) w) as Hw.
  rewrite E in Hf, Hw. simpl in Hf, Hw. destruct Hf as (? & ? & ?).
  rewrite Ht, Hw. repeat split; auto.
Qed.

Lemma buffer_append_other {A} (b b' : gmap string (list A)) feed x g :
  g <> feed -> FraudDetector.buffer_append b feed x = Ok b' ->
  b' !! g = b !! g.
Proof.
  unfold FraudDetector.buffer_append, FraudDetector.buffer. intros Hg.
  destruct (b !! feed); simpl; [|discriminate].
  intros [= <-]. now apply lookup_insert_ne.
Qed.

Lemma detect_fraud_other_history d data now g :
  g <> default "UNKNOWN"%string (feed_name data) ->
  history (FraudDetector.detect_fraud d data now).2 g = history d g.
Proof.
  intros Hg. unfold FraudDetector.detect_fraud.
  set (feed := default "UNKNOWN"%string (feed_name data)) in *.
  set (d0 := match FraudDetector.price_buffer d !! feed with
             | Some _ => d | None => _ end).
  assert (H0 : history d0 g = history d g).
  { subst d0. destruct (FraudDetector.price_buffer d !! feed); [reflexivity|].
    unfold history. simpl. now rewrite !lookup_insert_ne by congruence. }
  rewrite <- H0. clearbody d0. clear H0.
  destruct (FraudDetector.buffer_append (FraudDetector.price_buffer d0) _ _)
    as [pb|] eqn:Ep; [|reflexivity].
  cbn [FraudDetector.volume_buffer FraudDetector.timestamp_buffer
       FraudDetector.price_buffer FraudDetector.model
       FraudDetector.feature_extractor FraudDetector.thresholds].
  destruct (FraudDetector.buffer_append (FraudDetector.volume_buffer d0) _ _)
    as [vb|] eqn:Ev.
  2:{ unfold history. cbn [snd FraudDetector.volume_buffer
        FraudDetector.timestamp_buffer FraudDetector.price_buffer].
      now rewrite (buffer_append_other _ _ _ _ _ Hg Ep). }
  destruct (FraudDetector.buffer_append (FraudDetector.timestamp_buffer d0) _ _)
    as [tb|] eqn:Et;
    unfold history; cbn [snd FraudDetector.volume_buffer
        FraudDetector.timestamp_buffer FraudDetector.price_buffer];
    rewrite ?(buffer_append_other _ _ _ _ _ Hg Ep),
      ?(buffer_append_other _ _ _ _ _ Hg Ev),
      ?(buffer_append_other _ _ _ _ _ Hg Et); reflexivity.
Qed.

Lemma process_detection_frame data det self w :
  let feed := default "UNKNOWN"%string (feed_name data) in
  let out := _process_detection data det self w in
  detector out.1.2 = detector self
  /\ (circuit_breaker_active out.1.2 = circuit_breaker_active self
      \/ circuit_breaker_active out.1.2
         = {[feed]} ∪ circuit_breaker_active self).
Proof.
  intros feed out. subst out.
  unfold _process_detection, datetime_now. fold feed.
  destruct (AlertDeduplicator.should_alert _ _ _ _ _) as [send dedup].
  destruct send; cbn [negb]; [|simpl; auto].
  destruct (_create_alert _ _ _ _ _ _ _) as [alert w1].
  unfold bind.
  destruct (send_alert_spec alert (set_deduplicator self dedup) w1)
    as (w2 & rest & -> & _).
  simpl. case_match; simpl; [|auto].
  unfold _activate_circuit_breaker, datetime_now, redis_command. simpl.
  auto.
Qed.

Lemma process_detections_frame data ds self w :
  let feed := default "UNKNOWN"%string (feed_name data) in
  let out := process_detections data ds self w in
  detector out.1.2 = detector self
  /\ (circuit_breaker_active out.1.2 = circuit_breaker_active self
      \/ circuit_breaker_active out.1.2
         = {[feed]} ∪ circuit_breaker_active self).
Proof.
  intros feed. revert self w. induction ds as [|d ds IH]; intros self w.
  - simpl. auto.
  - simpl. unfold bind.
    pose proof (process_detection_frame data d self w) as Hd.
    destruct (_process_detection data d self w) as [[r self1] w1].
    simpl in Hd. destruct Hd as [Hdet Hcb]. fold feed in Hcb.
    destruct r as [[]|e]; simpl; [|auto].
    specialize (IH self1 w1). simpl in IH. destruct IH as [IHdet IHcb].
    split; [congruence|].
    destruct Hcb as [Hcb|Hcb], IHcb as [I|I]; rewrite I, Hcb; auto.
    right. now rewrite (assoc_L (∪)), union_idemp_L.
Qed.

(** One step that is not the deactivation of [feed] keeps an active
    breaker of [feed] active and the history of [feed] as it is. *)
Lemma step_keeps_breaker feed s (st : FraudAlertsPipeline.t * World) :
  feed ∈ circuit_breaker_active st.1 ->
  s <> deactivate feed ->
  feed ∈ circuit_breaker_active (step s st).1
  /\ history (detector (step s st).1) feed = history (detector st.1) feed.
Proof.
  destruct st as [self w]. simpl. intros Hin Hs.
  destruct s as [[data|data|ch]|g]; simpl.
  - unfold _process_message, try_except, _handle_price_update.
    destruct (decide (default "UNKNOWN"%string (feed_name data)
                      ∈ circuit_breaker_active self)) as [Hact|Hact];
      [simpl; auto|].
    assert (Hne : feed <> default "UNKNOWN"%string (feed_name data))
      by (intros ->; contradiction).
    unfold datetime_now.
    pose proof (detect_fraud_other_history (detector self) data
                  (now_at w (ticks w)) feed Hne) as Hh.
    destruct (FraudDetector.detect_fraud _ _ _) as [r det].
    simpl in Hh. destruct r as [ds|e]; [|simpl; auto].
    pose proof (process_detections_frame data ds (set_detector self det)
                  (advance w [])) as Hf.
    destruct (process_detections _ _ _ _) as [[r' self'] w'].
    simpl in Hf |- *. destruct Hf as [-> Hcb]. split; [|assumption].
    destruct Hcb as [-> | ->]; set_solver.
  - pose proof (process_anomaly_frame data self w) as Ha.
    simpl in Ha. destruct Ha as (Hd & _ & Hc).
    destruct (_process_message _ _ _) as [[r self'] w']. simpl in *.
    rewrite Hc, Hd. auto.
  - auto.
  - unfold deactivate_circuit_breaker, datetime_now, redis_command. simpl.
    split; [|reflexivity].
    assert (g <> feed) by congruence. set_solver.
Qed.

Lemma run_keeps_breaker feed steps (st : FraudAlertsPipeline.t * World) :
  feed ∈ circuit_breaker_active st.1 ->
  deactivate feed ∉ steps ->
  feed ∈ circuit_breaker_active (run steps st).1
  /\ history (detector (run steps st).1) feed = history (detector st.1) feed.
Proof.
  revert st. induction steps as [|s steps IH]; intros st Hin Hno.
  - simpl. auto.
  - apply not_elem_of_cons in Hno as [Hs Hno].
    destruct (step_keeps_breaker feed s st Hin) as [Hin' Hh'];
      [congruence|].
    unfold run. simpl. fold (run steps (step s st)).
    destruct (IH (step s st) Hin' Hno) as [? ?].
    split; [assumption|congruence].
Qed.

(** C4. Once the breaker of [feed] is active, after any steps of the
    pipeline that do not deactivate it: the breaker is still active and
    the rolling history of the feed is untouched; handling one more
    detection of that feed leaves the set of active breakers as it is; and
    a [price:update] of that feed changes neither the pipeline nor the
    world, so it does not reach [detect_fraud]. *)
Theorem breaker_holds_until_deactivated
    (feed : string) (steps : list Step) (self : FraudAlertsPipeline.t)
    (w : World) :
  feed ∈ circuit_breaker_active self ->
  deactivate feed ∉ steps ->
  let after := (run steps (self, w)).1 in
  feed ∈ circuit_breaker_active after
  /\ history (detector after) feed = history (detector self) feed
  /\ (forall data det w',
        default "UNKNOWN"%string (feed_name data) = feed ->
        circuit_breaker_active (_process_detection data det after w').1.2
        = circuit_breaker_active after)
  /\ (forall data w',
        default "UNKNOWN"%string (feed_name data) = feed ->
        _process_message (price_update data) after w' = (Ok tt, after, w')).
Proof.
  intros Hin Hno after.
  destruct (run_keeps_breaker feed steps (self, w) Hin Hno) as [Ha Hh].
  fold after in Ha, Hh. split; [assumption|]. split; [assumption|]. split.
  - intros data det w' Hf.
    destruct (process_detection_frame data det after w') as [_ [H|H]];
      [assumption|].
    rewrite H, Hf. apply subseteq_union_1_L. now apply singleton_subseteq_l.
  - intros data w' Hf.
    unfold _process_message, try_except, _handle_price_update.
    rewrite Hf. destruct (decide (feed ∈ circuit_breaker_active after));
      [reflexivity|contradiction].
Qed.
End Pipeline.

Lemma breaker_holds_until_deactivated_witness :
  let tripped :=
    FraudAlertsPipeline.run
      [FraudAlertsPipeline.receive (price_update (eth_event 2000 10 0 20))]
      (FraudAlertsPipeline.__init__ default_config, still_world None true) in
  let steps :=
    [FraudAlertsPipeline.receive (price_update (eth_event 2400 10 5 20));
     FraudAlertsPipeline.receive
       (anomaly_detected (Anomaly.mk (Some example_feed) None None None));
     FraudAlertsPipeline.deactivate "BTC/USD";
     FraudAlertsPipeline.receive (price_update (eth_event 9000 10 0 5000))] in
  let after := (FraudAlertsPipeline.run steps (tripped.1, tripped.2)).1 in
  example_feed ∈ FraudAlertsPipeline.circuit_breaker_active after
  /\ history (FraudAlertsPipeline.detector after) example_feed
     = history (FraudAlertsPipeline.detector tripped.1) example_feed
  /\ (forall data det w',
        default "UNKNOWN"%string (feed_name data) = example_feed ->
        FraudAlertsPipeline.circuit_breaker_active
          (FraudAlertsPipeline._process_detection data det after w').1.2
        = FraudAlertsPipeline.circuit_breaker_active after)
  /\ (forall data w',
        default "UNKNOWN"%string (feed_name data) = example_feed ->
        FraudAlertsPipeline._process_message (price_update data) after w'
        = (Ok tt, after, w')).
Proof.
  intros tripped steps.
  apply (breaker_holds_until_deactivated example_feed steps
           tripped.1 tripped.2).
  - refine (bool_decide_unpack _ _). vm_compute. exact I.
  - subst steps. rewrite !not_elem_of_cons.
    repeat split; try discriminate. apply not_elem_of_nil.
Defined.

(** * Further properties of the code *)

(** ** AlertDeduplicator *)

Section DeduplicatorMore.
Import AlertDeduplicator.

Lemma elapsed_lt_micro (now last : datetime) (c : Z) :
  (elapsed_minutes now last < inject_Z c)%Q
  <-> datetime_sub now last < c * 60000000.
Proof.
  unfold elapsed_minutes, total_seconds, Qlt, Qdiv, Qmult, Qinv. simpl.
  lia.
Qed.

Lemma rejected_micro
    (self : AlertDeduplicator.t) (feed ftype : string) (sev : AlertSeverity)
    (now last : datetime) :
  sev <> CRITICAL ->
  recent_alerts self !! key feed ftype = Some last ->
  ((should_alert self feed ftype sev now).1 = false
   <-> datetime_sub now last < cooldown_minutes self * 60000000).
Proof.
  intros Hs Hl. rewrite should_alert_non_critical by assumption.
  unfold in_cooldown. rewrite Hl. rewrite <- elapsed_lt_micro, <- Qltb_lt.
  destruct (Qltb _ _); simpl; split; congruence.
Qed.

(** X1. For a call that is not CRITICAL on a key last alerted at [last]:
    it is rejected exactly when fewer than [cooldown_minutes * 60 000
    000] microseconds separate [now] from [last]; a call exactly
    [cooldown_minutes] later is admitted, and an admitted call records
    [now]. *)
Theorem cooldown_is_strict_in_microseconds
    (self : AlertDeduplicator.t) (feed ftype : string) (sev : AlertSeverity)
    (now last : datetime) :
  sev <> CRITICAL ->
  recent_alerts self !! key feed ftype = Some last ->
  ((should_alert self feed ftype sev now).1 = false
   <-> datetime_sub now last < cooldown_minutes self * 60000000)
  /\ (datetime_sub now last = cooldown_minutes self * 60000000 ->
      (should_alert self feed ftype sev now).1 = true)
  /\ ((should_alert self feed ftype sev now).1 = true ->
      recent_alerts (should_alert self feed ftype sev now).2 !! key feed ftype
      = Some now).
Proof.
  intros Hs Hl. pose proof (rejected_micro self feed ftype sev now last Hs Hl)
    as H.
  split; [exact H|]. split.
  - intros E. destruct (should_alert self feed ftype sev now).1;
      [reflexivity|]. assert (H' := proj1 H eq_refl). lia.
  - apply should_alert_true_sets_recent.
Qed.

Lemma datetime_sub_add (a b c : datetime) :
  datetime_sub a c = datetime_sub a b + datetime_sub b c.
Proof. unfold datetime_sub. lia. Qed.

Lemma should_alert_rejected_unchanged (self : AlertDeduplicator.t)
    (feed ftype : string) (sev : AlertSeverity) (now : datetime) :
  (should_alert self feed ftype sev now).1 = false ->
  (should_alert self feed ftype sev now).2 = self.
Proof.
  unfold should_alert. destruct (decide (sev = CRITICAL)); [discriminate|].
  destruct (in_cooldown _ _ _); [reflexivity|discriminate].
Qed.

(** X2. A rejected call leaves the deduplicator as it was, so the
    cooldown runs from the last admitted alert: of three calls, the
    second inside the cooldown of the first and the third past it, the
    first and third are admitted even when the third is inside a
    cooldown counted from the second. *)
Theorem rejected_call_does_not_extend_cooldown
    (self : AlertDeduplicator.t) (feed ftype : string)
    (s1 s2 s3 : AlertSeverity) (t1 t2 t3 : datetime) :
  s1 <> CRITICAL -> s2 <> CRITICAL -> s3 <> CRITICAL ->
  in_cooldown self (key feed ftype) t1 = false ->
  datetime_sub t2 t1 < cooldown_minutes self * 60000000 ->
  cooldown_minutes self * 60000000 <= datetime_sub t3 t1 ->
  let r1 := should_alert self feed ftype s1 t1 in
  let r2 := should_alert r1.2 feed ftype s2 t2 in
  let r3 := should_alert r2.2 feed ftype s3 t3 in
  r1.1 = true /\ r2.1 = false /\ r2.2 = r1.2 /\ r3.1 = true.
Proof.
  intros H1 H2 H3 Hfree H12 H13 r1 r2 r3.
  assert (E1 : r1 = (true, _increment_count
                             (set_recent self (key feed ftype) t1)
                             (key feed ftype))).
  { subst r1. rewrite should_alert_non_critical by assumption.
    now rewrite Hfree. }
  assert (L1 : recent_alerts r1.2 !! key feed ftype = Some t1).
  { rewrite E1. simpl. apply lookup_insert_eq. }
  assert (E2 : r2.1 = false).
  { subst r2. apply (rejected_micro _ _ _ _ _ t1);
      [assumption|assumption|]. rewrite E1. exact H12. }
  assert (E2' : r2.2 = r1.2)
    by (subst r2; now apply should_alert_rejected_unchanged).
  split; [now rewrite E1|]. split; [assumption|]. split; [assumption|].
  subst r3. rewrite E2'.
  destruct (should_alert r1.2 feed ftype s3 t3).1 eqn:E; [reflexivity|].
  apply (rejected_micro _ _ _ _ _ t1) in E;
    [|assumption|assumption].
  rewrite E1 in E. simpl in E. lia.
Qed.

(** X3. After any sequence of calls, the counter of a key has grown by
    the number of calls for that key that were admitted and not
    CRITICAL; counters never decrease. *)
Theorem counter_counts_non_critical_admissions
    (calls : list Call) (self : AlertDeduplicator.t) (k : string) :
  let r := run_calls self calls in
  default 0 (get_alert_statistics r.2 !! k)
  = default 0 (get_alert_statistics self !! k)
    + Z.of_nat (length (filter (fun cb => counted k cb = true)
                               (zip calls r.1))).
Proof.
  revert self. induction calls as [|c calls IH]; intros self.
  - simpl. lia.
  - simpl.
    destruct (should_alert self (call_feed c) (call_type c)
                (call_severity c) (call_now c)) as [b self1] eqn:E.
    specialize (IH self1).
    destruct (run_calls self1 calls) as [bs self2]. simpl in IH |- *.
    rewrite IH. clear IH.
    assert (Hstep : default 0 (get_alert_statistics self1 !! k)
            = default 0 (get_alert_statistics self !! k)
              + (if counted k (c, b) then 1 else 0)).
    { unfold should_alert in E. unfold counted. simpl.
      destruct (decide (call_severity c = CRITICAL)) as [Hc|Hc].
      - injection E as <- <-. rewrite (bool_decide_eq_true_2 _ Hc). simpl.
        unfold get_alert_statistics. simpl. lia.
      - rewrite (bool_decide_eq_false_2 _ Hc).
        destruct (in_cooldown _ _ _); injection E as <- <-; simpl; [lia|].
        unfold get_alert_statistics. simpl.
        destruct (decide (key (call_feed c) (call_type c) = k)) as [Hk|Hk].
        + rewrite (bool_decide_eq_true_2 _ Hk). subst k.
          rewrite lookup_insert_eq. simpl. lia.
        + rewrite (bool_decide_eq_false_2 _ Hk).
          rewrite lookup_insert_ne by assumption. lia. }
    rewrite Hstep. rewrite filter_cons.
    destruct (decide (counted k (c, b) = true)) as [Hd|Hd].
    + rewrite Hd. simpl. lia.
    + apply not_true_is_false in Hd. rewrite Hd. lia.
Qed.

Lemma rsplit_colon_free (s : string) :
  (forall a b, s <> (a ++ ":" ++ b)%string) -> rsplit_colon s = None.
Proof.
  induction s as [|c s IH]; intros H; [reflexivity|]. simpl.
  rewrite IH.
  - destruct (Ascii.eqb_spec c ":") as [->|]; [|reflexivity].
    exfalso. apply (H EmptyString s). reflexivity.
  - intros a b ->. apply (H (String c a) b). reflexivity.
Qed.

Lemma rsplit_colon_key (feed tail : string) :
  rsplit_colon tail = None ->
  rsplit_colon (key feed tail) = Some (feed, tail).
Proof.
  intros Ht. unfold key. induction feed as [|c feed IH].
  - change (rsplit_colon (String ":" tail) = Some (EmptyString, tail)).
    cbn [rsplit_colon]. now rewrite Ht.
  - change (rsplit_colon (String c (feed ++ ":" ++ tail))
            = Some (String c feed, tail)).
    cbn [rsplit_colon]. now rewrite IH.
Qed.

Lemma fraud_value_no_colon (t : FraudType) :
  rsplit_colon (fraud_value t) = None.
Proof. destruct t; reflexivity. Qed.

Lemma fraud_value_inj (t t' : FraudType) :
  fraud_value t = fraud_value t' -> t = t'.
Proof. destruct t, t'; simpl; intros H; first [reflexivity|discriminate H]. Qed.

Lemma key_inj (feed feed' : string) (t t' : FraudType) :
  key feed (fraud_value t) = key feed' (fraud_value t') ->
  feed = feed' /\ t = t'.
Proof.
  intros H. apply (f_equal rsplit_colon) in H.
  rewrite !rsplit_colon_key in H by apply fraud_value_no_colon.
  injection H as -> H. split; [reflexivity|now apply fraud_value_inj].
Qed.

(** X4. For the fraud types of the enumeration, the key
    ["feed_name:fraud_type"] splits back at its last colon into the feed
    name and the fraud type, also when the feed name holds colons; two
    pairs have the same key only if they are the same pair. *)
Theorem dedup_key_identifies_pair (feed feed' : string) (t t' : FraudType) :
  rsplit_colon (key feed (fraud_value t)) = Some (feed, fraud_value t)
  /\ (key feed (fraud_value t) = key feed' (fraud_value t')
      <-> feed = feed' /\ t = t').
Proof.
  split; [apply rsplit_colon_key, fraud_value_no_colon|]. split.
  - apply key_inj.
  - now intros [-> ->].
Qed.

Lemma should_alert_other_key (self : AlertDeduplicator.t)
    (feed ftype : string) (sev : AlertSeverity) (now : datetime) (k : string) :
  key feed ftype <> k ->
  recent_alerts (should_alert self feed ftype sev now).2 !! k
  = recent_alerts self !! k
  /\ alert_counts (should_alert self feed ftype sev now).2 !! k
     = alert_counts self !! k
  /\ cooldown_minutes (should_alert self feed ftype sev now).2
     = cooldown_minutes self.
Proof.
  intros Hk. unfold should_alert.
  destruct (decide (sev = CRITICAL)); simpl.
  - now rewrite lookup_insert_ne.
  - destruct (in_cooldown _ _ _); simpl; [auto|].
    now rewrite !lookup_insert_ne.
Qed.

Lemma should_alert_depends_on_entry (d d' : AlertDeduplicator.t)
    (feed ftype : string) (sev : AlertSeverity) (now : datetime) :
  recent_alerts d !! key feed ftype = recent_alerts d' !! key feed ftype ->
  cooldown_minutes d = cooldown_minutes d' ->
  (should_alert d feed ftype sev now).1
  = (should_alert d' feed ftype sev now).1.
Proof.
  intros Hr Hc. unfold should_alert, in_cooldown.
  destruct (decide (sev = CRITICAL)); [reflexivity|].
  rewrite Hr, Hc. now destruct (recent_alerts d' !! _) as [l|]; [destruct (Qltb _ _)|].
Qed.

(** X5. A call for one (feed, fraud type) pair changes neither the
    answer of a later call for a different pair nor the counter of that
    pair. *)
Theorem cooldowns_of_different_pairs_are_independent
    (self : AlertDeduplicator.t) (feed feed' : string) (t t' : FraudType)
    (sev sev' : AlertSeverity) (now now' : datetime) :
  (feed, t) <> (feed', t') ->
  let after := (should_alert self feed (fraud_value t) sev now).2 in
  (should_alert after feed' (fraud_value t') sev' now').1
  = (should_alert self feed' (fraud_value t') sev' now').1
  /\ get_alert_statistics after !! key feed' (fraud_value t')
     = get_alert_statistics self !! key feed' (fraud_value t').
Proof.
  intros Hne after.
  assert (Hk : key feed (fraud_value t) <> key feed' (fraud_value t')).
  { intros H. apply key_inj in H as [-> ->]. now apply Hne. }
  destruct (should_alert_other_key self feed (fraud_value t) sev now _ Hk)
    as (Hr & Hc & Hm).
  split; [|exact Hc]. now apply should_alert_depends_on_entry.
Qed.

(** X6. When the retention window is at least the cooldown and the clock
    does not run backwards, [cleanup_old_entries] changes no later
    answer of [should_alert]; it leaves the counters alone and keeps
    exactly the entries younger than the window. *)
Theorem cleanup_keeps_later_answers
    (self : AlertDeduplicator.t) (max_age_hours : Z) (cleaned later : datetime)
    (feed ftype : string) (sev : AlertSeverity) :
  cooldown_minutes self <= max_age_hours * 60 ->
  0 <= datetime_sub later cleaned ->
  let self' := cleanup_old_entries self max_age_hours cleaned in
  (should_alert self' feed ftype sev later).1
  = (should_alert self feed ftype sev later).1
  /\ get_alert_statistics self' = get_alert_statistics self
  /\ (forall k v, recent_alerts self' !! k = Some v ->
        recent_alerts self !! k = Some v
        /\ datetime_sub cleaned v < max_age_hours * 3600 * 1000000).
Proof.
  intros Hc Hl self'. split; [|split; [reflexivity|]].
  - unfold should_alert. destruct (decide (sev = CRITICAL)); [reflexivity|].
    assert (E : in_cooldown self' (key feed ftype) later
                = in_cooldown self (key feed ftype) later).
    { unfold in_cooldown. subst self'. simpl.
      destruct (recent_alerts self !! key feed ftype) as [v|] eqn:Ev.
      - destruct (decide (datetime_sub cleaned v
                          < max_age_hours * 3600 * 1000000)) as [Hy|Ho].
        + erewrite (map_lookup_filter_Some_2 _ _ _ v); [reflexivity|exact Ev|].
          exact Hy.
        + rewrite map_lookup_filter_None_2.
          * symmetry. apply Qltb_ge. apply Qnot_lt_le. intros Hlt.
            apply elapsed_lt_micro in Hlt.
            rewrite (datetime_sub_add later cleaned v) in Hlt. lia.
          * right. intros x Hx. rewrite Ev in Hx. injection Hx as <-.
            exact Ho.
      - rewrite map_lookup_filter_None_2; [reflexivity|now left]. }
    rewrite E. now destruct (in_cooldown self (key feed ftype) later).
  - intros k v H. subst self'. simpl in H.
    apply map_lookup_filter_Some in H. exact H.
Qed.
End DeduplicatorMore.

Section DeduplicatorExamples.
Import AlertDeduplicator.

Lemma cooldown_is_strict_in_microseconds_witness :
  let self := (AlertDeduplicator.should_alert (AlertDeduplicator.__init__ 5)
       example_feed "VOLUME_ANOMALY" MEDIUM (at_time 9 0 0)).2 in
  let feed := example_feed in
  let ftype := "VOLUME_ANOMALY"%string in
  let sev := HIGH in
  let now := at_time 9 5 0 in
  let last := at_time 9 0 0 in
  ((should_alert self feed ftype sev now).1 = false
   <-> datetime_sub now last < cooldown_minutes self * 60000000)
  /\ (datetime_sub now last = cooldown_minutes self * 60000000 ->
      (should_alert self feed ftype sev now).1 = true)
  /\ ((should_alert self feed ftype sev now).1 = true ->
      recent_alerts (should_alert self feed ftype sev now).2 !! key feed ftype
      = Some now).
Proof.
  intros self feed ftype sev now last.
  apply (cooldown_is_strict_in_microseconds self feed ftype sev now last).
  - discriminate.
  - vm_compute. reflexivity.
Defined.

Lemma rejected_call_does_not_extend_cooldown_witness :
  let self := AlertDeduplicator.__init__ 5 in
  let feed := example_feed in
  let ftype := "LATENCY_SPIKE"%string in
  let s1 := MEDIUM in
  let s2 := HIGH in
  let s3 := LOW in
  let t1 := at_time 9 0 0 in
  let t2 := at_time 9 4 0 in
  let t3 := at_time 9 5 30 in
  let r1 := should_alert self feed ftype s1 t1 in
  let r2 := should_alert r1.2 feed ftype s2 t2 in
  let r3 := should_alert r2.2 feed ftype s3 t3 in
  r1.1 = true /\ r2.1 = false /\ r2.2 = r1.2 /\ r3.1 = true.
Proof.
  intros self feed ftype s1 s2 s3 t1 t2 t3.
  apply (rejected_call_does_not_extend_cooldown self feed ftype s1 s2 s3
           t1 t2 t3).
  - discriminate.
  - discriminate.
  - discriminate.
  - reflexivity.
  - now vm_compute.
  - now vm_compute.
Defined.

Lemma cooldowns_of_different_pairs_are_independent_witness :
  let self := AlertDeduplicator.__init__ 5 in
  let feed := example_feed in
  let feed' := "BTC/USD"%string in
  let t := PRICE_MANIPULATION in
  let t' := PRICE_MANIPULATION in
  let sev := HIGH in
  let sev' := MEDIUM in
  let now := at_time 9 0 0 in
  let now' := at_time 9 1 0 in
  let after := (should_alert self feed (fraud_value t) sev now).2 in
  (should_alert after feed' (fraud_value t') sev' now').1
  = (should_alert self feed' (fraud_value t') sev' now').1
  /\ get_alert_statistics after !! key feed' (fraud_value t')
     = get_alert_statistics self !! key feed' (fraud_value t').
Proof.
  intros self feed feed' t t' sev sev' now now'.
  apply (cooldowns_of_different_pairs_are_independent self feed feed' t t'
           sev sev' now now').
  discriminate.
Defined.

Lemma cleanup_keeps_later_answers_witness :
  let self := (AlertDeduplicator.should_alert (AlertDeduplicator.__init__ 5)
       example_feed "VOLUME_ANOMALY" MEDIUM (at_time 9 0 0)).2 in
  let max_age_hours := 24 in
  let cleaned := at_time 10 0 0 in
  let later := at_time 10 1 0 in
  let feed := example_feed in
  let ftype := "VOLUME_ANOMALY"%string in
  let sev := HIGH in
  let self' := cleanup_old_entries self max_age_hours cleaned in
  (should_alert self' feed ftype sev later).1
  = (should_alert self feed ftype sev later).1
  /\ get_alert_statistics self' = get_alert_statistics self
  /\ (forall k v, recent_alerts self' !! k = Some v ->
        recent_alerts self !! k = Some v
        /\ datetime_sub cleaned v < max_age_hours * 3600 * 1000000).
Proof.
  intros self max_age_hours cleaned later feed ftype sev.
  apply (cleanup_keeps_later_answers self max_age_hours cleaned later feed
           ftype sev).
  - now vm_compute.
  - now vm_compute.
Defined.
End DeduplicatorExamples.

(** ** FraudDetector *)

Section DetectorMore.
Import FraudDetector.

Lemma last_n_length {A} (n : nat) (l : list A) :
  length (last_n n l) = Nat.min n (length l).
Proof. unfold last_n. rewrite length_skipn. lia. Qed.

Lemma deque_append_length {A} (d : list A) (x : A) :
  (length d <= 100)%nat ->
  length (deque_append 100 d x) = Nat.min 100 (S (length d)).
Proof.
  intros H. unfold deque_append. rewrite last_n_length, length_app.
  cbn [length]. lia.
Qed.




Lemma detect_fraud_unfold (self : FraudDetector.t) (data : FeedData)
    (now : datetime) :
  buffers_ok self ->
  let feed := default "UNKNOWN"%string (feed_name data) in
  exists p v t self',
    (price_buffer self !! feed = Some p \/
     price_buffer self !! feed = None /\ p = [])
    /\ (volume_buffer self !! feed = Some v \/
        volume_buffer self !! feed = None /\ v = [])
    /\ (timestamp_buffer self !! feed = Some t \/
        timestamp_buffer self !! feed = None /\ t = [])
    /\ length p = length v /\ length v = length t /\ (length p <= 100)%nat
    /\ detect_fraud self data now = (run_detections self' feed data, self')
    /\ model self' = model self
    /\ feature_extractor self' = feature_extractor self
    /\ thresholds self' = thresholds self
    /\ price_buffer self'
       = <[feed := deque_append 100 p (default 0%Q (price data))]>
           (price_buffer self)
    /\ volume_buffer self'
       = <[feed := deque_append 100 v (default 0%Q (volume data))]>
           (volume_buffer self)
    /\ timestamp_buffer self'
       = <[feed := deque_append 100 t
                     (from_option MsgStamp (ClockStamp now) (timestamp data))]>
           (timestamp_buffer self).
Proof.
  intros Hok feed. pose proof (Hok feed) as Hf.
  unfold detect_fraud. fold feed.
  destruct (price_buffer self !! feed) as [p|] eqn:Ep,
           (volume_buffer self !! feed) as [v|] eqn:Ev,
           (timestamp_buffer self !! feed) as [t|] eqn:Et;
    try contradiction.
  - destruct Hf as (H1 & H2 & H3).
    unfold buffer_append, buffer. cbn [price_buffer volume_buffer
      timestamp_buffer model feature_extractor thresholds].
    rewrite Ep. cbn [rbind price_buffer volume_buffer timestamp_buffer
                       model feature_extractor thresholds].
    rewrite Ev. cbn [rbind price_buffer volume_buffer timestamp_buffer
                       model feature_extractor thresholds].
    rewrite Et. cbn [rbind].
    exists p, v, t. eexists.
    split; [now left|]. split; [now left|]. split; [now left|].
    split; [exact H1|]. split; [exact H2|]. split; [exact H3|].
    split; [reflexivity|]. repeat split.
  - exists [], [], []. eexists.
    split; [now right|]. split; [now right|]. split; [now right|].
    split; [reflexivity|]. split; [reflexivity|]. split; [simpl; lia|].
    split.
    + unfold buffer_append, buffer. cbn [price_buffer volume_buffer
        timestamp_buffer model feature_extractor thresholds].
      rewrite !lookup_insert_eq. cbn [rbind price_buffer volume_buffer
        timestamp_buffer model feature_extractor thresholds].
      rewrite ?lookup_insert_eq. cbn [rbind]. reflexivity.
    + cbn [price_buffer volume_buffer
        timestamp_buffer model feature_extractor thresholds].
      rewrite !insert_insert_eq. repeat split.
Qed.

Lemma detect_fraud_buffers_ok (self : FraudDetector.t) (data : FeedData)
    (now : datetime) :
  buffers_ok self -> buffers_ok (detect_fraud self data now).2.
Proof.
  intros Hok.
  destruct (detect_fraud_unfold self data now Hok)
    as (p & v & t & self' & _ & _ & _ & L1 & L2 & L3 & E & _ & _ & _
        & Bp & Bv & Bt).
  rewrite E. cbn [snd]. intros f. rewrite Bp, Bv, Bt.
  destruct (decide (default "UNKNOWN"%string (feed_name data) = f))
    as [<-|Hne].
  - rewrite !lookup_insert_eq. rewrite !deque_append_length by lia. lia.
  - rewrite !lookup_insert_ne by assumption. apply Hok.
Qed.

Lemma detect_fraud_keeps_settings (self : FraudDetector.t) (data : FeedData)
    (now : datetime) :
  buffers_ok self ->
  thresholds (detect_fraud self data now).2 = thresholds self
  /\ model (detect_fraud self data now).2 = model self
  /\ feature_extractor (detect_fraud self data now).2
     = feature_extractor self.
Proof.
  intros Hok.
  destruct (detect_fraud_unfold self data now Hok)
    as (p & v & t & self' & _ & _ & _ & _ & _ & _ & E & Hm & Hfe & Ht & _).
  rewrite E. auto.
Qed.

(** X11. On well-formed buffers, [detect_fraud] leaves them well formed
    (the same feeds in the three buffers, equal lengths, at most 100
    entries) and appends the event to the deques of its feed: the price
    buffer then has between 1 and 100 entries and ends with the price of
    the event (0 when the message has none), the oldest entry being
    dropped when the deque is full. *)
Theorem detect_fraud_appends_event (self : FraudDetector.t) (data : FeedData)
    (now : datetime) :
  buffers_ok self ->
  let feed := default "UNKNOWN"%string (feed_name data) in
  let after := (detect_fraud self data now).2 in
  buffers_ok after
  /\ price_buffer after !! feed
     = Some (deque_append 100 (default [] (price_buffer self !! feed))
               (default 0%Q (price data)))
  /\ volume_buffer after !! feed
     = Some (deque_append 100 (default [] (volume_buffer self !! feed))
               (default 0%Q (volume data)))
  /\ (forall l, price_buffer after !! feed = Some l ->
        (1 <= length l <= 100)%nat
        /\ last l = Some (default 0%Q (price data))).
Proof.
  intros Hok feed after.
  destruct (detect_fraud_unfold self data now Hok)
    as (p & v & t & self' & Hp & Hv & Ht & L1 & L2 & L3 & E & _ & _ & _
        & Bp & Bv & Bt).
  fold feed in Hp, Hv, Ht, E, Bp, Bv, Bt.
  assert (after = self') as -> by (subst after; now rewrite E).
  assert (Dp : default [] (price_buffer self !! feed) = p)
    by (destruct Hp as [->|[-> ->]]; reflexivity).
  assert (Dv : default [] (volume_buffer self !! feed) = v)
    by (destruct Hv as [->|[-> ->]]; reflexivity).
  rewrite Dp, Dv, Bp, Bv, !lookup_insert_eq.
  split; [|split; [reflexivity|split; [reflexivity|]]].
  - intros f. rewrite Bp, Bv, Bt.
    destruct (decide (feed = f)) as [<-|Hne].
    + rewrite !lookup_insert_eq.
      rewrite !deque_append_length by lia. lia.
    + rewrite !lookup_insert_ne by assumption. apply Hok.
  - intros l [= <-]. rewrite deque_append_length by assumption.
    split; [lia|]. unfold deque_append, last_n.
    rewrite length_app. cbn [length].
    replace (p ++ [default 0%Q (price data)])
      with (take (length p + 1 - 100) p
            ++ (drop (length p + 1 - 100) p ++ [default 0%Q (price data)]))
      by (now rewrite app_assoc, take_drop).
    rewrite skipn_app. rewrite length_take.
    replace (length p + 1 - 100 - Nat.min (length p + 1 - 100) (length p))%nat
      with 0%nat by lia.
    rewrite skipn_all2 by (rewrite length_take; lia).
    simpl. apply last_snoc.
Qed.












Lemma source_degradation_missing (self : FraudDetector.t) (feed : string)
    (data : FeedData) :
  thresholds self = init_thresholds ->
  source_count data = None ->
  exists d,
    _detect_source_degradation self feed data = Ok [d]
    /\ fraud_type d = SOURCE_DEGRADATION /\ severity d = CRITICAL
    /\ (score d == 1)%Q /\ (potential_loss d == 30000)%Q.
Proof.
  intros Ht Hs. unfold _detect_source_degradation. rewrite Ht, Hs.
  eexists. split; [reflexivity|]. repeat split.
Qed.


Lemma run_detections_parts (self : FraudDetector.t) (feed : string)
    (data : FeedData) (ds : list Detection) :
  run_detections self feed data = Ok ds ->
  exists d1 d2 d3 d4 d5 d6,
    _detect_price_manipulation self feed data = Ok d1
    /\ _detect_volume_anomaly self feed data = Ok d2
    /\ _detect_latency_spike self feed data = Ok d3
    /\ _detect_source_degradation self feed data = Ok d4
    /\ _detect_sandwich_attack self feed data = Ok d5
    /\ match model self with
       | Some _ => _detect_with_ml self feed data
       | None => Ok []
       end = Ok d6
    /\ ds = d1 ++ d2 ++ d3 ++ d4 ++ d5 ++ d6.
Proof.
  intros H. unfold run_detections in H.
  repeat match goal with
  | H : rbind _ _ = Ok _ |- _ =>
      apply rbind_Ok in H; destruct H as (? & ? & H)
  end.
  injection H as <-. do 6 eexists. repeat (split; [eassumption|]).
  reflexivity.
Qed.


Lemma missing_source_count_is_critical (self : FraudDetector.t)
    (data : FeedData) (now : datetime) (ds : list Detection) :
  buffers_ok self ->
  thresholds self = init_thresholds ->
  source_count data = None ->
  (detect_fraud self data now).1 = Ok ds ->
  exists d,
    In d ds
    /\ fraud_type d = SOURCE_DEGRADATION /\ severity d = CRITICAL
    /\ (score d == 1)%Q /\ (potential_loss d == 30000)%Q.
Proof.
  intros Hok Ht Hs H.
  destruct (detect_fraud_unfold self data now Hok)
    as (p & v & t & self' & _ & _ & _ & _ & _ & _ & E & _ & _ & Ht' & _).
  rewrite E in H. cbn [fst] in H. rewrite Ht in Ht'.
  apply run_detections_parts in H
    as (d1 & d2 & d3 & d4 & d5 & d6 & _ & _ & _ & H4 & _ & _ & ->).
  destruct (source_degradation_missing self'
              (default "UNKNOWN"%string (feed_name data)) data Ht' Hs)
    as (d & Hd & Hrest).
  rewrite Hd in H4. injection H4 as <-. exists d.
  split; [rewrite !in_app_iff; simpl; auto 10|exact Hrest].
Qed.




End DetectorMore.

Section DetectorExamples.
Import FraudDetector.

Lemma buffers_ok_init (saved : option (option Model * option FeatureExtractor)) :
  buffers_ok (FraudDetector.__init__ saved).
Proof. intros f. cbn. now rewrite !lookup_empty. Qed.

Lemma feed_events_buffers_ok (events : list FeedData) (d : FraudDetector.t) :
  buffers_ok d -> buffers_ok (feed_events events d).
Proof.
  revert d. induction events as [|e events IH]; intros d Hd; [exact Hd|].
  unfold feed_events. cbn [fold_left]. apply IH.
  now apply detect_fraud_buffers_ok.
Qed.





Lemma detect_fraud_appends_event_witness :
  let self := feed_events (repeat (eth_event 2000 10 5 20) 100)
       (FraudDetector.__init__ None) in
  let data := eth_event 2100 10 5 20 in
  let now := at_time 0 0 0 in
  let feed := default "UNKNOWN"%string (feed_name data) in
  let after := (detect_fraud self data now).2 in
  buffers_ok after
  /\ price_buffer after !! feed
     = Some (deque_append 100 (default [] (price_buffer self !! feed))
               (default 0%Q (price data)))
  /\ volume_buffer after !! feed
     = Some (deque_append 100 (default [] (volume_buffer self !! feed))
               (default 0%Q (volume data)))
  /\ (forall l, price_buffer after !! feed = Some l ->
        (1 <= length l <= 100)%nat
        /\ last l = Some (default 0%Q (price data))).
Proof.
  intros self data now.
  apply (detect_fraud_appends_event self data now).
  apply feed_events_buffers_ok, buffers_ok_init.
Defined.


End DetectorExamples.

(** ** FraudAlertsPipeline and AlertNotifier *)

Section PipelineMore.
Import FraudAlertsPipeline.
#[local] Opaque hashlib.sha256_hexdigest isoformat.

Lemma create_alert_payload feed ft sev c s l w :
  let a := (_create_alert feed ft sev c s l w).1 in
  FraudAlert.confidence a = c
  /\ FraudAlert.anomaly_score a = s
  /\ FraudAlert.potential_loss_usd a = l
  /\ FraudAlert.is_acknowledged a = false
  /\ FraudAlert.resolution_status a = "OPEN"%string.
Proof. unfold _create_alert, _generate_alert_id, datetime_now. simpl. auto. Qed.

(** What [_process_detection] does, by the answer of the deduplicator. *)
Lemma process_detection_cases (data : FeedData) (det : Detection)
    (self : FraudAlertsPipeline.t) (w : World) :
  let feed := default "UNKNOWN"%string (feed_name data) in
  let d := AlertDeduplicator.should_alert (deduplicator self) feed
             (fraud_value (fraud_type det)) (severity det)
             (now_at w (ticks w)) in
  let out := _process_detection data det self w in
  deduplicator out.1.2 = d.2
  /\ detector out.1.2 = detector self
  /\ config out.1.2 = config self
  /\ (out.1.1 = Ok tt \/ out.1.1 = Raise ConnectionError)
  /\ if d.1
     then exists alert,
            alerts_generated out.1.2 = alerts_generated self ++ [alert]
            /\ FraudAlert.feed_name alert = feed
            /\ FraudAlert.fraud_type alert = fraud_value (fraud_type det)
            /\ FraudAlert.severity alert = severity_value (severity det)
            /\ FraudAlert.confidence alert = confidence det
            /\ FraudAlert.anomaly_score alert = score det
            /\ FraudAlert.potential_loss_usd alert = potential_loss det
            /\ if enable_auto_circuit_break (config self)
                  && Qltb (circuit_break_threshold (config self)) (score det)
               then circuit_breaker_active out.1.2
                    = {[feed]} ∪ circuit_breaker_active self
                    /\ exists ts,
                         last (trace out.2)
                         = Some (RedisPublishBreaker
                                   "circuit_breaker:activated" feed
                                   (Some (FraudAlert.id alert)) ts)
               else circuit_breaker_active out.1.2
                    = circuit_breaker_active self
                    /\ out.1.1 = Ok tt
     else out = (Ok tt, set_deduplicator self d.2, advance w []).
Proof.
  intros feed d out. subst out d.
  unfold _process_detection, datetime_now. fold feed.
  destruct (AlertDeduplicator.should_alert _ _ _ _ _) as [send dedup].
  cbn [fst snd]. destruct send; cbn [negb]; [|repeat split; auto].
  pose proof (create_alert_fields feed (fraud_type det) (severity det)
                (confidence det) (score det) (potential_loss det)
                (advance w [])) as F1.
  pose proof (create_alert_payload feed (fraud_type det) (severity det)
                (confidence det) (score det) (potential_loss det)
                (advance w [])) as F2.
  destruct (_create_alert _ _ _ _ _ _ _) as [alert w1].
  cbn [fst] in F1, F2. destruct F1 as (? & ? & ?), F2 as (? & ? & ? & _).
  unfold bind.
  destruct (send_alert_spec alert (set_deduplicator self dedup) w1)
    as (w2 & rest & -> & _).
  cbn [config set_alerts_generated set_deduplicator].
  destruct (enable_auto_circuit_break (config self)
            && Qltb (circuit_break_threshold (config self)) (score det)).
  - unfold _activate_circuit_breaker, datetime_now, redis_command.
    cbn [fst snd deduplicator detector config alerts_generated
         circuit_breaker_active set_alerts_generated set_deduplicator
         set_circuit_breaker_active].
    split; [reflexivity|]. split; [reflexivity|]. split; [reflexivity|].
    split; [destruct (redis_at _ _); auto|].
    exists alert. repeat (split; [assumption || reflexivity|]).
    eexists. unfold advance. cbn [trace].
    rewrite last_snoc. reflexivity.
  - cbn [fst snd deduplicator detector config alerts_generated
         circuit_breaker_active set_alerts_generated set_deduplicator].
    split; [reflexivity|]. split; [reflexivity|]. split; [reflexivity|].
    split; [auto|].
    exists alert. repeat (split; [assumption || reflexivity|]).
    reflexivity.
Qed.

(** X14. [_process_detection] appends exactly one alert, carrying the
    feed, fraud type and score of the detection, when the deduplicator
    admits the detection, and none otherwise; the breaker of the feed is
    added exactly when the detection is admitted, automatic breaking is
    enabled and the score exceeds the threshold, and the set of breakers
    is otherwise unchanged. *)
Theorem process_detection_alert_and_breaker (data : FeedData)
    (det : Detection) (self : FraudAlertsPipeline.t) (w : World) :
  let feed := default "UNKNOWN"%string (feed_name data) in
  let sent := (AlertDeduplicator.should_alert (deduplicator self) feed
                 (fraud_value (fraud_type det)) (severity det)
                 (now_at w (ticks w))).1 in
  let out := _process_detection data det self w in
  (if sent
   then exists alert,
          alerts_generated out.1.2 = alerts_generated self ++ [alert]
          /\ FraudAlert.feed_name alert = feed
          /\ FraudAlert.fraud_type alert = fraud_value (fraud_type det)
          /\ FraudAlert.anomaly_score alert = score det
   else alerts_generated out.1.2 = alerts_generated self)
  /\ circuit_breaker_active out.1.2
     = (if sent && enable_auto_circuit_break (config self)
           && Qltb (circuit_break_threshold (config self)) (score det)
        then {[feed]} ∪ circuit_breaker_active self
        else circuit_breaker_active self).
Proof.
  intros feed sent out.
  destruct (process_detection_cases data det self w)
    as (_ & _ & _ & _ & H).
  fold feed in H. fold sent in H. fold out in H.
  destruct sent; cbn [andb].
  - destruct H as (alert & Ha & Hf & Ht & _ & _ & Hs & _ & Hb).
    split; [exists alert; auto|].
    destruct (enable_auto_circuit_break (config self)
              && Qltb (circuit_break_threshold (config self)) (score det));
      apply Hb.
  - rewrite H. split; reflexivity.
Qed.

Lemma process_detection_raise_trips (data : FeedData) (det : Detection)
    (self : FraudAlertsPipeline.t) (w : World) (e : Exn) :
  (_process_detection data det self w).1.1 = Raise e ->
  default "UNKNOWN"%string (feed_name data)
  ∈ circuit_breaker_active (_process_detection data det self w).1.2.
Proof.
  intros Hr.
  destruct (process_detection_cases data det self w)
    as (_ & _ & _ & _ & H).
  destruct (AlertDeduplicator.should_alert _ _ _ _ _).1.
  - destruct H as (alert & _ & _ & _ & _ & _ & _ & _ & Hb).
    destruct (enable_auto_circuit_break (config self)
              && Qltb (circuit_break_threshold (config self)) (score det)).
    + destruct Hb as [-> _]. apply elem_of_union_l, elem_of_singleton.
      reflexivity.
    + destruct Hb as [_ Hok]. congruence.
  - rewrite H in Hr. discriminate Hr.
Qed.

Lemma process_detections_trips (data : FeedData) (ds : list Detection)
    (d : Detection) (self : FraudAlertsPipeline.t) (w : World) :
  In d ds -> severity d = CRITICAL ->
  enable_auto_circuit_break (config self) = true ->
  Qltb (circuit_break_threshold (config self)) (score d) = true ->
  default "UNKNOWN"%string (feed_name data)
  ∈ circuit_breaker_active (process_detections data ds self w).1.2.
Proof.
  set (feed := default "UNKNOWN"%string (feed_name data)).
  revert self w. induction ds as [|x ds IH]; intros self w Hin Hsev Hen Hsc;
    [contradiction|].
  cbn [process_detections]. unfold bind.
  pose proof (process_detection_cases data x self w) as Hc.
  pose proof (process_detection_raise_trips data x self w) as Hr.
  fold feed in Hc, Hr.
  destruct (_process_detection data x self w) as [[r self1] w1].
  cbn [fst snd] in Hc, Hr.
  destruct Hc as (_ & _ & Hcfg & _ & Hcase).
  destruct r as [[]|e]; [|cbn [fst snd]; now apply (Hr e)].
  destruct Hin as [<-|Hin].
  - assert (Hf : feed ∈ circuit_breaker_active self1).
    { rewrite Hsev in Hcase.
      change (AlertDeduplicator.should_alert (deduplicator self) feed
                (fraud_value (fraud_type x)) CRITICAL (now_at w (ticks w))).1
        with true in Hcase.
      destruct Hcase as (alert & _ & _ & _ & _ & _ & _ & _ & Hb).
      rewrite Hen, Hsc in Hb. destruct Hb as [-> _].
      apply elem_of_union_l, elem_of_singleton. reflexivity. }
    destruct (process_detections_frame data ds self1 w1) as [_ [->| ->]];
      [assumption|]. now apply elem_of_union_r.
  - apply IH; [assumption|assumption|now rewrite Hcfg|now rewrite Hcfg].
Qed.

(** X15. When [detect_fraud] returns a CRITICAL detection whose score
    exceeds the threshold and automatic breaking is enabled, the breaker
    of the feed is active after the message, whatever the cooldowns, the
    other detections of the event and the answers of Redis and of the
    channels. *)
Theorem critical_detection_trips_breaker (data : FeedData)
    (self : FraudAlertsPipeline.t) (w : World) (ds : list Detection)
    (d : Detection) :
  (FraudDetector.detect_fraud (detector self) data (now_at w (ticks w))).1
  = Ok ds ->
  In d ds -> severity d = CRITICAL ->
  enable_auto_circuit_break (config self) = true ->
  (circuit_break_threshold (config self) < score d)%Q ->
  default "UNKNOWN"%string (feed_name data)
  ∈ circuit_breaker_active
      (_process_message (price_update data) self w).1.2.
Proof.
  intros Hd Hin Hsev Hen Hsc. apply Qltb_lt in Hsc.
  unfold _process_message, try_except, _handle_price_update.
  destruct (decide (default "UNKNOWN"%string (feed_name data)
                    ∈ circuit_breaker_active self)) as [Ha|Ha];
    [exact Ha|].
  unfold datetime_now.
  destruct (FraudDetector.detect_fraud _ _ _) as [r det]. cbn [fst] in Hd.
  subst r.
  pose proof (process_detections_trips data ds d (set_detector self det)
                (advance w []) Hin Hsev Hen Hsc) as H.
  destruct (process_detections _ _ _ _) as [[r' self'] w']. exact H.
Qed.

(** X16. A [price:update] without [source_count] counts as one with no
    source: when [detect_fraud] returns, its detections hold a CRITICAL
    SOURCE_DEGRADATION of score 1 and loss 30000, and with automatic
    breaking enabled and a threshold below 1 the breaker of the feed is
    active after the message. *)
Theorem missing_source_count_trips_breaker (data : FeedData)
    (self : FraudAlertsPipeline.t) (w : World) (ds : list Detection) :
  buffers_ok (detector self) ->
  FraudDetector.thresholds (detector self) = init_thresholds ->
  source_count data = None ->
  enable_auto_circuit_break (config self) = true ->
  (circuit_break_threshold (config self) < 1)%Q ->
  (FraudDetector.detect_fraud (detector self) data (now_at w (ticks w))).1
  = Ok ds ->
  (exists d,
     In d ds /\ fraud_type d = SOURCE_DEGRADATION /\ severity d = CRITICAL
     /\ (score d == 1)%Q /\ (potential_loss d == 30000)%Q)
  /\ default "UNKNOWN"%string (feed_name data)
     ∈ circuit_breaker_active
         (_process_message (price_update data) self w).1.2.
Proof.
  intros Hok Ht Hs Hen Hthr Hd.
  destruct (missing_source_count_is_critical _ _ _ _ Hok Ht Hs Hd)
    as (d & Hin & Hty & Hsev & Hsc & Hl).
  split; [exists d; auto|].
  unfold _process_message, try_except, _handle_price_update.
  destruct (decide (default "UNKNOWN"%string (feed_name data)
                    ∈ circuit_breaker_active self)) as [Ha|Ha];
    [exact Ha|].
  unfold datetime_now.
  destruct (FraudDetector.detect_fraud _ _ _) as [r det]. cbn [fst] in Hd.
  subst r.
  assert (Hq : Qltb (circuit_break_threshold (config self)) (score d) = true)
    by (apply Qltb_lt; rewrite Hsc; exact Hthr).
  pose proof (process_detections_trips data ds d (set_detector self det)
                (advance w []) Hin Hsev Hen Hq) as H.
  destruct (process_detections _ _ _ _) as [[r' self'] w']. exact H.
Qed.

(** X17. [deactivate_circuit_breaker] removes the feed from the active
    breakers before it publishes: the feed is removed also when the
    publication raises, which is the only way the call fails. The next
    [price:update] of the feed reaches [detect_fraud]: its price ends
    the price buffer of the feed. *)
Theorem deactivation_reopens_feed (feed : string)
    (self : FraudAlertsPipeline.t) (w : World) (data : FeedData) :
  buffers_ok (detector self) ->
  default "UNKNOWN"%string (feed_name data) = feed ->
  let closed := deactivate_circuit_breaker feed self w in
  let after := _process_message (price_update data) closed.1.2 closed.2 in
  circuit_breaker_active closed.1.2 = circuit_breaker_active self ∖ {[feed]}
  /\ closed.1.1
     = (if redis_at w (S (ticks w)) then Ok tt else Raise ConnectionError)
  /\ (exists ts,
        trace closed.2
        = trace w ++ [RedisPublishBreaker "circuit_breaker:deactivated" feed
                        None ts])
  /\ exists l,
       FraudDetector.price_buffer (detector after.1.2) !! feed = Some l
       /\ last l = Some (default 0%Q (price data)).
Proof.
  intros Hok Hf closed after.
  assert (Ec : closed.1.2
               = set_circuit_breaker_active self
                   (circuit_breaker_active self ∖ {[feed]})) by reflexivity.
  split; [now rewrite Ec|]. split; [reflexivity|].
  split.
  { eexists. subst closed.
    unfold deactivate_circuit_breaker, datetime_now, redis_command, advance.
    cbn [trace snd]. now rewrite app_nil_r. }
  subst after. unfold _process_message, try_except, _handle_price_update.
  rewrite Hf.
  destruct (decide (feed ∈ circuit_breaker_active closed.1.2)) as [Hin|_].
  { exfalso. rewrite Ec in Hin. cbn [circuit_breaker_active
      set_circuit_breaker_active] in Hin.
    apply elem_of_difference in Hin as [_ Hn]. apply Hn.
    now apply elem_of_singleton. }
  unfold datetime_now.
  assert (Hok' : buffers_ok (detector closed.1.2)) by (rewrite Ec; exact Hok).
  destruct (detect_fraud_unfold (detector closed.1.2) data
              (now_at closed.2 (ticks closed.2)) Hok')
    as (p & v & t & det' & _ & _ & _ & _ & _ & Hl & E & _ & _ & _ & Bp & _).
  rewrite Hf in E, Bp. rewrite E.
  assert (Hlast : FraudDetector.price_buffer det' !! feed
                  = Some (deque_append 100 p (default 0%Q (price data))))
    by (rewrite Bp; apply lookup_insert_eq).
  exists (deque_append 100 p (default 0%Q (price data))). split.
  - cbn [fst snd].
    destruct (FraudDetector.run_detections det' feed data) as [ds|e];
      [|exact Hlast].
    pose proof (process_detections_frame data ds
                  (set_detector closed.1.2 det') (advance closed.2 []))
      as [Hd _].
    cbv zeta in Hd.
    destruct (process_detections data ds _ _) as [[r' self'] w'].
    cbn [fst snd] in Hd |- *. rewrite Hd. exact Hlast.
  - unfold deque_append, last_n. rewrite length_app. cbn [length].
    replace (p ++ [default 0%Q (price data)])
      with (take (length p + 1 - 100) p
            ++ (drop (length p + 1 - 100) p ++ [default 0%Q (price data)]))
      by (now rewrite app_assoc, take_drop).
    rewrite skipn_app, length_take.
    replace (length p + 1 - 100 - Nat.min (length p + 1 - 100) (length p))%nat
      with 0%nat by lia.
    rewrite skipn_all2 by (rewrite length_take; lia).
    simpl. apply last_snoc.
Qed.

Lemma should_alert_cooldown (d : AlertDeduplicator.t) (f t : string)
    (sev : AlertSeverity) (now : datetime) :
  AlertDeduplicator.cooldown_minutes
    (AlertDeduplicator.should_alert d f t sev now).2
  = AlertDeduplicator.cooldown_minutes d.
Proof.
  unfold AlertDeduplicator.should_alert.
  destruct (decide (sev = CRITICAL)); [reflexivity|].
  now destruct (AlertDeduplicator.in_cooldown _ _ _).
Qed.

Lemma process_detections_keeps (data : FeedData) (ds : list Detection)
    (self : FraudAlertsPipeline.t) (w : World) :
  let out := process_detections data ds self w in
  config out.1.2 = config self
  /\ AlertDeduplicator.cooldown_minutes (deduplicator out.1.2)
     = AlertDeduplicator.cooldown_minutes (deduplicator self)
  /\ alerts_generated self `prefix_of` alerts_generated out.1.2.
Proof.
  revert self w. induction ds as [|x ds IH]; intros self w.
  - cbn. auto.
  - cbn [process_detections]. unfold bind.
    pose proof (process_detection_cases data x self w) as Hc.
    destruct (_process_detection data x self w) as [[r self1] w1].
    cbn [fst snd] in Hc. destruct Hc as (Hd & _ & Hcfg & _ & Hcase).
    assert (Hp : alerts_generated self `prefix_of` alerts_generated self1).
    { destruct (AlertDeduplicator.should_alert _ _ _ _ _).1.
      - destruct Hcase as (a & -> & _). now apply prefix_app_r.
      - injection Hcase as _ -> _. reflexivity. }
    assert (Hcd : AlertDeduplicator.cooldown_minutes (deduplicator self1)
                  = AlertDeduplicator.cooldown_minutes (deduplicator self))
      by (rewrite Hd; apply should_alert_cooldown).
    destruct r as [[]|e]; cbn [fst snd]; [|auto].
    specialize (IH self1 w1). cbv zeta in IH.
    destruct IH as (I1 & I2 & I3).
    split; [congruence|]. split; [congruence|]. now transitivity (alerts_generated self1).
Qed.

Lemma step_keeps (cfg : PipelineConfig) (s : Step)
    (st : FraudAlertsPipeline.t * World) :
  settled cfg st.1 ->
  settled cfg (step s st).1
  /\ alerts_generated st.1 `prefix_of` alerts_generated (step s st).1.
Proof.
  destruct st as [self w]. cbn [fst]. intros (Hc & Hd & Hb & Ht & Hm).
  destruct s as [[data|data|ch]|g]; cbn [step fst snd].
  - unfold _process_message, try_except, _handle_price_update.
    destruct (decide (_ ∈ _)); [cbn; unfold settled; auto 10|].
    unfold datetime_now.
    pose proof (detect_fraud_buffers_ok (detector self) data
                  (now_at w (ticks w)) Hb) as Hb'.
    pose proof (detect_fraud_keeps_settings (detector self) data
                  (now_at w (ticks w)) Hb) as (Ht' & Hm' & _).
    destruct (FraudDetector.detect_fraud _ _ _) as [r det].
    cbn [snd] in Hb', Ht', Hm'.
    destruct r as [ds|e].
    + pose proof (process_detections_keeps data ds (set_detector self det)
                    (advance w [])) as K.
      pose proof (process_detections_frame data ds (set_detector self det)
                    (advance w [])) as [F _].
      cbv zeta in K, F.
      destruct (process_detections _ _ _ _) as [[r' self'] w'].
      cbn [fst snd] in K, F |- *. destruct K as (K1 & K2 & K3).
      unfold settled. rewrite K1, K2, F.
      cbn [config deduplicator detector set_detector alerts_generated] in *.
      split; [|exact K3].
      split; [exact Hc|]. split; [exact Hd|]. split; [exact Hb'|].
      split; [now rewrite Ht'|now rewrite Hm'].
    + unfold settled.
      cbn [config deduplicator detector set_detector alerts_generated
           fst snd].
      split; [|reflexivity].
      split; [exact Hc|]. split; [exact Hd|]. split; [exact Hb'|].
      split; [now rewrite Ht'|now rewrite Hm'].
  - unfold _process_message, try_except, _handle_external_anomaly.
    destruct (_create_alert _ _ _ _ _ _ _) as [alert w1].
    destruct (send_alert_spec alert self w1) as (w2 & rest & -> & _).
    cbn. unfold settled. cbn. split; [auto 10|]. now apply prefix_app_r.
  - cbn. unfold settled. auto 10.
  - unfold deactivate_circuit_breaker, datetime_now, redis_command. cbn.
    unfold settled. cbn. auto 10.
Qed.

(** X18. Whatever messages and deactivations a pipeline built by
    [__init__] goes through: its configuration and cooldown stay those
    it was built with, its detector keeps well-formed buffers, the
    thresholds of [__init__] and no model, and the alerts generated so
    far stay a prefix of the alerts generated later. *)
Theorem pipeline_keeps_settings_and_alerts (steps : list Step)
    (cfg : PipelineConfig) (w : World) :
  let start := FraudAlertsPipeline.__init__ cfg in
  let after := (run steps (start, w)).1 in
  config after = cfg
  /\ AlertDeduplicator.cooldown_minutes (deduplicator after)
     = alert_cooldown_minutes cfg
  /\ buffers_ok (detector after)
  /\ FraudDetector.thresholds (detector after) = init_thresholds
  /\ FraudDetector.model (detector after) = None
  /\ forall more : list Step,
       alerts_generated after
       `prefix_of` alerts_generated (run more (run steps (start, w))).1.
Proof.
  intros start after.
  assert (G : forall steps st, settled cfg st.1 ->
            settled cfg (run steps st).1
            /\ alerts_generated st.1
               `prefix_of` alerts_generated (run steps st).1).
  { clear. induction steps as [|s steps IH]; intros st Hs.
    - cbn. split; [assumption|reflexivity].
    - unfold run. cbn [fold_left]. fold (run steps (step s st)).
      destruct (step_keeps cfg s st Hs) as [Hs' Hp].
      destruct (IH (step s st) Hs') as [Hs'' Hp'].
      split; [assumption|]. now transitivity (alerts_generated (step s st).1). }
  assert (S0 : settled cfg (start, w).1).
  { unfold settled. split; [reflexivity|]. split; [reflexivity|].
    split; [|split; reflexivity]. intros f. cbn. now rewrite !lookup_empty. }
  destruct (G steps (start, w) S0) as [(H1 & H2 & H3 & H4 & H5) _].
  fold after in H1, H2, H3, H4, H5.
  repeat (split; [assumption|]).
  intros more. apply G. unfold settled. auto.
Qed.





(** X20. When the first Redis command of [_store_alert] fails,
    [_send_alert] still returns: the alert is in the generated alerts,
    no further store command is sent, and every configured channel is
    still notified. *)
Theorem alert_survives_store_failure (alert : FraudAlert.t)
    (self : FraudAlertsPipeline.t) (w : World) :
  redis_at w (ticks w) = false ->
  let out := _send_alert alert self w in
  out.1.1 = Ok tt
  /\ alerts_generated out.1.2 = alerts_generated self ++ [alert]
  /\ trace out.2
     = trace w
       ++ [RedisSetex ("alert:" ++ FraudAlert.id alert)
             (retention_days (config self)) alert]
       ++ channel_effects (config self) alert.
Proof.
  intros Hr out. subst out. unfold _send_alert, bind, _store_alert,
    redis_command.
  cbn [fst snd]. rewrite Hr.
  pose proof (notify_all_channels_trace
                (config (set_alerts_generated self
                           (alerts_generated self ++ [alert]))) alert
                (advance w [RedisSetex ("alert:" ++ FraudAlert.id alert)
                              (retention_days (config self)) alert])) as Ht.
  destruct (AlertNotifier.notify_all_channels _ _ _) as [res w2].
  cbn [fst snd] in Ht |- *. rewrite Ht. unfold advance. cbn [trace].
  split; [reflexivity|]. split; [reflexivity|].
  now rewrite <- app_assoc.
Qed.

(** X21. The tags of an alert start with its fraud type and its
    severity, hold URGENT exactly for CRITICAL and HIGH, hold
    MEV_RELATED exactly for flash-loan and sandwich types, and no tag
    twice. *)
Theorem generate_tags_characterised (ft : FraudType) (sev : AlertSeverity) :
  let tags := _generate_tags ft sev in
  take 2 tags = [fraud_value ft; severity_value sev]
  /\ ("URGENT"%string ∈ tags <-> sev = CRITICAL \/ sev = HIGH)
  /\ ("MEV_RELATED"%string ∈ tags
      <-> ft = FLASH_LOAN_ATTACK \/ ft = SANDWICH_ATTACK)
  /\ NoDup tags.
Proof.
  destruct ft, sev; cbv zeta; refine (bool_decide_unpack _ _); vm_compute;
    exact I.
Qed.

(** X22. Every alert has between two and five recommended actions; the
    emergency action is among them exactly for CRITICAL alerts, where it
    comes first and is followed by the actions of the fraud type. *)
Theorem recommended_actions_characterised (ft : FraudType)
    (sev : AlertSeverity) :
  let acts := _get_recommended_actions ft sev in
  (2 <= length acts <= 5)%nat
  /\ (head acts = Some "EMERGENCY: Activate circuit breaker NOW"%string
      <-> sev = CRITICAL)
  /\ ("EMERGENCY: Activate circuit breaker NOW"%string ∈ acts
      <-> sev = CRITICAL)
  /\ (sev = CRITICAL ->
      tail acts = _get_recommended_actions ft HIGH).
Proof.
  destruct ft, sev; cbv zeta; refine (bool_decide_unpack _ _); vm_compute;
    exact I.
Qed.
End PipelineMore.

Section PipelineExamples.
Import FraudAlertsPipeline.

Lemma critical_detection_trips_breaker_witness :
  let data := eth_event 2000 10 0 20 in
  let self := FraudAlertsPipeline.__init__ default_config in
  let w := still_world None true in
  default "UNKNOWN"%string (feed_name data)
  ∈ circuit_breaker_active
      (_process_message (price_update data) self w).1.2.
Proof.
  intros data self w.
  eapply (critical_detection_trips_breaker data self w).
  - vm_compute. reflexivity.
  - left. reflexivity.
  - reflexivity.
  - reflexivity.
  - vm_compute. reflexivity.
Defined.

Lemma missing_source_count_trips_breaker_witness :
  let data := mk_feed (Some example_feed) (Some 2000%Q) (Some 10%Q) None
       (Some 20%Q) None in
  let self := FraudAlertsPipeline.__init__ default_config in
  let w := still_world None false in
  let ds := match (FraudDetector.detect_fraud (FraudAlertsPipeline.detector self)
             data (now_at w (ticks w))).1 with
     | Ok l => l
     | Raise _ => []
     end in
  (exists d,
     In d ds /\ fraud_type d = SOURCE_DEGRADATION /\ severity d = CRITICAL
     /\ (score d == 1)%Q /\ (potential_loss d == 30000)%Q)
  /\ default "UNKNOWN"%string (feed_name data)
     ∈ circuit_breaker_active
         (_process_message (price_update data) self w).1.2.
Proof.
  intros data self w ds.
  apply (missing_source_count_trips_breaker data self w ds).
  - apply buffers_ok_init.
  - reflexivity.
  - reflexivity.
  - reflexivity.
  - reflexivity.
  - vm_compute. reflexivity.
Defined.

Lemma deactivation_reopens_feed_witness :
  let feed := example_feed in
  let self := FraudAlertsPipeline.set_circuit_breaker_active
       (FraudAlertsPipeline.__init__ default_config) {[example_feed]} in
  let w := still_world None false in
  let data := eth_event 2400 10 5 20 in
  let closed := deactivate_circuit_breaker feed self w in
  let after := _process_message (price_update data) closed.1.2 closed.2 in
  circuit_breaker_active closed.1.2 = circuit_breaker_active self ∖ {[feed]}
  /\ closed.1.1
     = (if redis_at w (S (ticks w)) then Ok tt else Raise ConnectionError)
  /\ (exists ts,
        trace closed.2
        = trace w ++ [RedisPublishBreaker "circuit_breaker:deactivated" feed
                        None ts])
  /\ exists l,
       FraudDetector.price_buffer (detector after.1.2) !! feed = Some l
       /\ last l = Some (default 0%Q (price data)).
Proof.
  intros feed self w data.
  apply (deactivation_reopens_feed feed self w data).
  - apply buffers_ok_init.
  - reflexivity.
Defined.

Lemma alert_survives_store_failure_witness :
  let alert := example_alert in
  let self := FraudAlertsPipeline.__init__ webhook_config in
  let w := still_world (Some 200) false in
  let out := _send_alert alert self w in
  out.1.1 = Ok tt
  /\ alerts_generated out.1.2 = alerts_generated self ++ [alert]
  /\ trace out.2
     = trace w
       ++ [RedisSetex ("alert:" ++ FraudAlert.id alert)
             (retention_days (config self)) alert]
       ++ channel_effects (config self) alert.
Proof.
  intros alert self w.
  apply (alert_survives_store_failure alert self w). reflexivity.
Defined.
End PipelineExamples.
